(** * nucypher: the [alice] command group (nucypher/cli/commands/alice.py)

    A shallow embedding of the option classes [AliceConfigOptions] and
    [AliceCharacterOptions] and of the commands [init], [run] and [grant].

    The commands are glue code: nearly every statement is a call into a
    collaborator that lives in another module of the package (the
    configuration class, the keyring, the controllers, the prompts of
    [nucypher.cli.actions]).  A command is therefore modelled as a
    computation that yields the chronological list of collaborator calls it
    performed together with its outcome (a returned value or a raised
    exception).  What each collaborator answers is read from a [World]; no
    command asks the same collaborator twice, so one answer per call and
    argument is all a run can observe. *)

From Stdlib Require Import ZArith String Ascii List Floats.PrimFloat.
From Stdlib.Strings Require Byte.
From stdpp Require Import base option list gmap strings pretty.

Local Open Scope string_scope.
Local Open Scope Z_scope.

(** ** Python values and truthiness *)

(** Values that travel through a request dictionary or come back from a
    controller. *)
Inductive PyVal : Type :=
  | PyNone
  | PyStr (s : string)
  | PyInt (z : Z).

Definition py_of_str (o : option string) : PyVal :=
  match o with Some s => PyStr s | None => PyNone end.

Definition py_of_int (o : option Z) : PyVal :=
  match o with Some z => PyInt z | None => PyNone end.

(** [bool(x)] for an optional string: [None] and the empty string are falsy. *)
Definition truthy_str (o : option string) : bool :=
  match o with
  | None => false
  | Some s => negb (String.eqb s "")
  end.

(** [bool(x)] for a tri-state flag: [None] and [False] are falsy. *)
Definition truthy_flag (o : option bool) : bool :=
  match o with
  | Some b => b
  | None => false
  end.

(** [x is False] for a tri-state flag. *)
Definition is_False (o : option bool) : bool :=
  match o with
  | Some false => true
  | _ => false
  end.

(** [bytes(x).hex()] *)
Definition hex_digit (n : N) : ascii :=
  match n with
  | 0%N => "0" | 1%N => "1" | 2%N => "2" | 3%N => "3"
  | 4%N => "4" | 5%N => "5" | 6%N => "6" | 7%N => "7"
  | 8%N => "8" | 9%N => "9" | 10%N => "a" | 11%N => "b"
  | 12%N => "c" | 13%N => "d" | 14%N => "e" | _ => "f"
  end%char.

Definition hex_of_byte (b : Byte.byte) : string :=
  let n := Byte.to_N b in
  String (hex_digit (n / 16)) (String (hex_digit (n mod 16)) EmptyString).

Fixpoint hex (bs : list Byte.byte) : string :=
  match bs with
  | [] => ""
  | b :: bs' => hex_of_byte b ++ hex bs'
  end.

(** ** Exceptions *)

Inductive exn : Type :=
  | BadOptionUsage (option_name message : string)   (* click.BadOptionUsage *)
  | BadArgumentUsage (message : string)             (* click.BadArgumentUsage *)
  | FileNotFoundError (message : string)
  | AuthenticationFailed (message : string)         (* NucypherKeyring.AuthenticationFailed *)
  | Exit (code : Z)                                 (* click.exceptions.Exit *)
  | PyException (class_name message : string)       (* any other subclass of Exception *)
  | PyBaseException (class_name message : string).  (* KeyboardInterrupt, SystemExit, ... *)

(** [isinstance(e, Exception)] *)
Definition is_Exception (e : exn) : bool :=
  match e with
  | PyBaseException _ _ => false
  | _ => true
  end.

Definition is_FileNotFoundError (e : exn) : bool :=
  match e with FileNotFoundError _ => true | _ => false end.

Definition is_AuthenticationFailed (e : exn) : bool :=
  match e with AuthenticationFailed _ => true | _ => false end.

(** [e.__class__.__name__] *)
Definition class_name_of (e : exn) : string :=
  match e with
  | BadOptionUsage _ _ => "BadOptionUsage"
  | BadArgumentUsage _ => "BadArgumentUsage"
  | FileNotFoundError _ => "FileNotFoundError"
  | AuthenticationFailed _ => "AuthenticationFailed"
  | Exit _ => "Exit"
  | PyException c _ => c
  | PyBaseException c _ => c
  end.

(** [str(e)] *)
Definition str_of (e : exn) : string :=
  match e with
  | BadOptionUsage _ m => m
  | BadArgumentUsage m => m
  | FileNotFoundError m => m
  | AuthenticationFailed m => m
  | Exit _ => ""
  | PyException _ m => m
  | PyBaseException _ m => m
  end.

(** The error kinds of the design document, as the commands raise them. *)
Inductive ErrorKind : Type :=
  | IncompatibleModeFlags
  | InvalidEphemeralFederation
  | MissingProviderURI
  | MissingCredential
  | PersistentDevelopmentCharacter.

Definition error_kind (e : exn) : option ErrorKind :=
  match e with
  | BadOptionUsage o _ =>
      if String.eqb o "--geth" then Some IncompatibleModeFlags
      else if String.eqb o "--federated-only" then Some InvalidEphemeralFederation
      else if String.eqb o "--provider" then Some MissingProviderURI
      else if String.eqb o "--json-ipc" then Some MissingCredential
      else None
  | BadArgumentUsage _ => Some PersistentDevelopmentCharacter
  | _ => None
  end.

(** ** Opaque handles and plain data *)

Record Emitter : Type := { emitter_id : nat }.
Record Middleware : Type := { middleware_id : nat }.

(** The managed Ethereum client: the sentinel or a staged process, of which
    only the provider URI of scheme [file] is ever read. *)
Inductive EthNode : Type :=
  | NO_BLOCKCHAIN_CONNECTION
  | ProviderProcess (file_uri : string).

(** [client_password]: [None], the sentinel [NO_PASSWORD], or a password. *)
Inductive ClientPassword : Type :=
  | PasswordNone
  | NO_PASSWORD
  | Password (s : string).

(** [AliceConfiguration] is declared in [nucypher.config.characters]; a
    configuration is represented by the attributes these commands pass to
    its constructors and read back. *)
Module AliceConfiguration.
Record t : Type := mk {
  emitter : Emitter;
  dev_mode : bool;
  network_middleware : Middleware;
  domains : option (gset string);
  provider_process : EthNode;
  provider_uri : option string;
  federated_only : bool;
  checksum_address : option string;
}.

(** Keyword arguments of [AliceConfiguration.from_configuration_file]. *)
Record from_file_args : Type := mk_from_file {
  ff_emitter : Emitter;
  ff_dev_mode : bool;
  ff_network_middleware : Middleware;
  ff_domains : option (gset string);
  ff_provider_process : EthNode;
  ff_provider_uri : option string;
  ff_filepath : option string;
  ff_rest_port : option Z;
  ff_checksum_address : option string;
  ff_registry_filepath : option string;
}.

(** Keyword arguments of [AliceConfiguration.generate]. *)
Record generate_args : Type := mk_generate {
  g_password : string;
  g_config_root : option string;
  g_checksum_address : option string;
  g_domains : option (gset string);
  g_federated_only : option bool;
  g_provider_uri : option string;
  g_provider_process : EthNode;
  g_registry_filepath : option string;
  g_poa : bool;
  g_light : bool;
  g_m : option Z;
  g_n : option Z;
  g_duration_periods : option float;
  g_rate : option Z;
}.
End AliceConfiguration.

(** The unlocked character, as far as the commands look at it. *)
Record Alice : Type := {
  alice_federated_only : bool;
  alice_stamp : list Byte.byte;
}.

(** Keyword arguments of [actions.make_cli_character]. *)
Record make_cli_character_args : Type := {
  mc_character_config : AliceConfiguration.t;
  mc_emitter : Emitter;
  mc_unlock_keyring : bool;
  mc_teacher_uri : option string;
  mc_min_stake : Z;
  mc_client_password : ClientPassword;
  mc_load_preferred_teachers : bool;
  mc_start_learning_now : bool;
}.

Record GeneralConfig : Type := {
  gc_emitter : Emitter;
  gc_json_ipc : bool;
  gc_debug : bool;
  gc_config_root : option string;
}.

(** ** Collaborator calls *)

Inductive Event : Type :=
  | EvGetProviderProcess
  | EvFromConfigurationFile (a : AliceConfiguration.from_file_args)
  | EvHandleMissingConfigurationFile (config_file : option string)
  | EvSelectClientAccount (provider_uri : option string) (show_balances : bool)
  | EvGetNucypherPassword (confirm : bool)
  | EvGenerate (a : AliceConfiguration.generate_args)
  | EvPaintNewInstallationHelp (new_configuration : AliceConfiguration.t)
  | EvGetClientPassword (checksum_address : option string)
  | EvMakeCliCharacter (a : make_cli_character_args)
  | EvEmitterClear
  | EvEmitterBanner
  | EvEmitterEcho (message color : string) (bold : bool)
  | EvEmitterMessage (message : string) (color : option string) (bold : bool)
  | EvLogInfo (message : string)
  | EvLogCritical (message : string)
  | EvMakeRpcController
  | EvMakeControlTransport
  | EvRpcStart
  | EvMakeWebController (crash_on_error : bool)
  | EvWebStart (http_port : Z) (dry_run : bool)
  | EvControllerGrant (request : gmap string PyVal).

Inductive Outcome (A : Type) : Type :=
  | Return (a : A)
  | Raise (e : exn).
Arguments Return {A} a.
Arguments Raise {A} e.

(** What surrounds the commands.  The first two fields are constants the
    file imports ([nucypher.utilities.sandbox.constants] and
    [nucypher.config.constants]); [environ] is [os.environ]; the other
    fields give, for each collaborator call that can fail or that yields a
    value the command goes on with, its outcome on the arguments it gets. *)
Record World : Type := {
  TEMPORARY_DOMAIN : string;
  NUCYPHER_ENVVAR_ALICE_ETH_PASSWORD : string;
  environ : gmap string string;
  get_provider_process : Outcome string;
  from_configuration_file :
    AliceConfiguration.from_file_args → Outcome AliceConfiguration.t;
  interactive_creation : option string → Outcome AliceConfiguration.t;
  select_client_account : option string → Outcome string;
  get_nucypher_password : bool → Outcome string;
  generate : AliceConfiguration.generate_args → Outcome AliceConfiguration.t;
  get_client_password : option string → Outcome string;
  make_cli_character : make_cli_character_args → Outcome Alice;
  rpc_start : Alice → Outcome unit;
  web_start : Alice → bool → Z → bool → Outcome PyVal;
  controller_grant : Alice → gmap string PyVal → Outcome PyVal;
}.

(** ** The command monad: a trace of calls and an outcome *)

Definition Cmd (A : Type) : Type := (list Event * Outcome A)%type.

Definition trace {A} (c : Cmd A) : list Event := fst c.
Definition outcome {A} (c : Cmd A) : Outcome A := snd c.

Global Instance Cmd_ret : MRet Cmd := λ A a, ([], Return a).

Global Instance Cmd_bind : MBind Cmd := λ A B k c,
  match c with
  | (t, Return a) => let '(t', o) := k a in ((t ++ t')%list, o)
  | (t, Raise e) => (t, Raise e)
  end.

(** [raise e] *)
Definition raise {A} (e : exn) : Cmd A := ([], Raise e).

(** A call to a collaborator: one trace entry, and the world's answer. *)
Definition call {A} (ev : Event) (answer : Outcome A) : Cmd A := ([ev], answer).

(** A call whose result is not used and which is taken not to fail: the
    emitter, the logger, the painting helper and the controller factories. *)
Definition emit (ev : Event) : Cmd unit := ([ev], Return tt).

(** [try: body  except <handles>: handler] *)
Definition try_except {A} (body : Cmd A) (handles : exn → bool)
    (handler : exn → Cmd A) : Cmd A :=
  match body with
  | (t, Return a) => (t, Return a)
  | (t, Raise e) =>
      if handles e
      then let r := handler e in ((t ++ fst r)%list, snd r)
      else (t, Raise e)
  end.

(** An expression statement: the value is computed and dropped. *)
Definition discard {A} (value : A) : Cmd unit := mret tt.

(** [if cond: raise e] *)
Definition raise_if (cond : bool) (e : exn) : Cmd unit :=
  if cond then raise e else mret tt.

(** A dict literal, and [dict.update] with a dict literal: the items are
    stored from left to right. *)
Definition dict_update (d : gmap string PyVal) (items : list (string * PyVal))
    : gmap string PyVal :=
  fold_left (λ acc kv, <[kv.1 := kv.2]> acc) items d.

Definition dict_of (items : list (string * PyVal)) : gmap string PyVal :=
  dict_update ∅ items.

(** Modelled from the spec: [actions.handle_missing_configuration_file] is
    defined in nucypher/cli/actions.py, which is not among these sources.
    The design document makes a missing configuration file a recoverable
    condition (kind MissingConfigFile): the caller is signalled and offers
    interactive creation.  The signal is the trace entry; what the offered
    creation ends in is the world's [interactive_creation]. *)
Definition handle_missing_configuration_file (w : World)
    (config_file : option string) : Cmd AliceConfiguration.t :=
  call (EvHandleMissingConfigurationFile config_file)
    (interactive_creation w config_file).

(** ** class AliceConfigOptions *)

Module AliceConfigOptions.

Record t : Type := mk {
  dev : bool;
  domains : option (gset string);
  provider_uri : option string;
  geth : bool;
  federated_only : option bool;
  eth_node : EthNode;
  pay_with : option string;
  discovery_port : option Z;
  registry_filepath : option string;
  middleware : Middleware;
}.

Section methods.
Context (w : World).

Definition __init__ (dev : bool) (network provider_uri : option string)
    (geth : bool) (federated_only : option bool) (discovery_port : option Z)
    (pay_with registry_filepath : option string) (middleware : Middleware)
    : Cmd t :=
  raise_if (truthy_flag federated_only && geth)
    (BadOptionUsage "--geth"
       "--federated-only cannot be used with the --geth flag");;
  (* Managed Ethereum Client *)
  node ← (if geth
          then uri ← call EvGetProviderProcess (get_provider_process w);
               mret (ProviderProcess uri, Some uri)
          else mret (NO_BLOCKCHAIN_CONNECTION, provider_uri));
  mret {| dev := dev;
          domains := if truthy_str network
                     then match network with
                          | Some net => Some {[ net ]}
                          | None => None
                          end
                     else None;
          provider_uri := node.2;
          geth := geth;
          federated_only := federated_only;
          eth_node := node.1;
          pay_with := pay_with;
          discovery_port := discovery_port;
          registry_filepath := registry_filepath;
          middleware := middleware |}.

Definition create_config (self : t) (emitter : Emitter)
    (config_file : option string) : Cmd AliceConfiguration.t :=
  if dev self then
    (* Can be None as well, meaning it is unset - no error in this case *)
    raise_if (is_False (federated_only self))
      (BadOptionUsage "--federated-only"
         "--federated-only cannot be explicitly set to False when --dev is set");;
    mret {| AliceConfiguration.emitter := emitter;
            AliceConfiguration.dev_mode := true;
            AliceConfiguration.network_middleware := middleware self;
            AliceConfiguration.domains := Some {[ TEMPORARY_DOMAIN w ]};
            AliceConfiguration.provider_process := eth_node self;
            AliceConfiguration.provider_uri := provider_uri self;
            AliceConfiguration.federated_only := true;
            AliceConfiguration.checksum_address := None |}
  else
    let args :=
      {| AliceConfiguration.ff_emitter := emitter;
         AliceConfiguration.ff_dev_mode := false;
         AliceConfiguration.ff_network_middleware := middleware self;
         AliceConfiguration.ff_domains := domains self;
         AliceConfiguration.ff_provider_process := eth_node self;
         AliceConfiguration.ff_provider_uri := provider_uri self;
         AliceConfiguration.ff_filepath := config_file;
         AliceConfiguration.ff_rest_port := discovery_port self;
         AliceConfiguration.ff_checksum_address := pay_with self;
         AliceConfiguration.ff_registry_filepath := registry_filepath self |} in
    try_except
      (call (EvFromConfigurationFile args) (from_configuration_file w args))
      is_FileNotFoundError
      (λ _, handle_missing_configuration_file w config_file).

Definition generate_config (self : t) (emitter : Emitter)
    (config_root : option string) (poa light : bool) (m n : option Z)
    (duration_periods : option float) (rate : option Z)
    : Cmd AliceConfiguration.t :=
  raise_if (dev self)
    (BadArgumentUsage "Cannot create a persistent development character");;
  raise_if (negb (truthy_str (provider_uri self))
            && negb (truthy_flag (federated_only self)))
    (BadOptionUsage "--provider"
       "--provider is required to create a new decentralized alice.");;
  pay_with ← (if negb (truthy_str (pay_with self))
                 && negb (truthy_flag (federated_only self))
              then account ← call (EvSelectClientAccount (provider_uri self) false)
                               (select_client_account w (provider_uri self));
                   mret (Some account)
              else mret (pay_with self));
  password ← call (EvGetNucypherPassword true) (get_nucypher_password w true);
  let args :=
    {| AliceConfiguration.g_password := password;
       AliceConfiguration.g_config_root := config_root;
       AliceConfiguration.g_checksum_address := pay_with;
       AliceConfiguration.g_domains := domains self;
       AliceConfiguration.g_federated_only := federated_only self;
       AliceConfiguration.g_provider_uri := provider_uri self;
       AliceConfiguration.g_provider_process := eth_node self;
       AliceConfiguration.g_registry_filepath := registry_filepath self;
       AliceConfiguration.g_poa := poa;
       AliceConfiguration.g_light := light;
       AliceConfiguration.g_m := m;
       AliceConfiguration.g_n := n;
       AliceConfiguration.g_duration_periods := duration_periods;
       AliceConfiguration.g_rate := rate |} in
  call (EvGenerate args) (generate w args).

End methods.
End AliceConfigOptions.

(** ** class AliceCharacterOptions *)

Module AliceCharacterOptions.

Record t : Type := mk {
  config_options : AliceConfigOptions.t;
  hw_wallet : bool;
  teacher_uri : option string;
  min_stake : Z;
}.

Definition __init__ (config_options : AliceConfigOptions.t) (hw_wallet : bool)
    (teacher_uri : option string) (min_stake : Z) : t :=
  mk config_options hw_wallet teacher_uri min_stake.

Section methods.
Context (w : World).

(** [os.environ.get(NUCYPHER_ENVVAR_ALICE_ETH_PASSWORD, NO_PASSWORD)] *)
Definition environ_get_password : ClientPassword :=
  match environ w !! NUCYPHER_ENVVAR_ALICE_ETH_PASSWORD w with
  | Some s => Password s
  | None => NO_PASSWORD
  end.

Definition is_NO_PASSWORD (p : ClientPassword) : bool :=
  match p with NO_PASSWORD => true | _ => false end.

Definition create_character (self : t) (emitter : Emitter)
    (config_file : option string) (json_ipc load_seednodes : bool)
    : Cmd Alice :=
  config ← AliceConfigOptions.create_config w (config_options self)
             emitter config_file;
  let eth_password_is_needed :=
    negb (AliceConfiguration.federated_only config)
    && negb (hw_wallet self)
    && negb (AliceConfiguration.dev_mode config) in
  client_password ←
    (if eth_password_is_needed then
       if json_ipc then
         let client_password := environ_get_password in
         (if is_NO_PASSWORD client_password then
            let message :=
              "--json-ipc implies the "
              ++ NUCYPHER_ENVVAR_ALICE_ETH_PASSWORD w
              ++ " envvar must be set." in
            (* the exception is built and left there: no [raise] *)
            discard (BadOptionUsage "--json-ipc" message)
          else mret tt);;
         mret client_password
       else
         p ← call (EvGetClientPassword (AliceConfiguration.checksum_address config))
               (get_client_password w (AliceConfiguration.checksum_address config));
         mret (Password p)
     else mret PasswordNone);
  let args :=
    {| mc_character_config := config;
       mc_emitter := emitter;
       mc_unlock_keyring := negb (AliceConfiguration.dev_mode config);
       mc_teacher_uri := teacher_uri self;
       mc_min_stake := min_stake self;
       mc_client_password := client_password;
       mc_load_preferred_teachers := load_seednodes;
       mc_start_learning_now := load_seednodes |} in
  try_except
    (call (EvMakeCliCharacter args) (make_cli_character w args))
    is_AuthenticationFailed
    (λ e, emit (EvEmitterEcho (str_of e) "red" true);;
          (* click.get_current_context().exit(1) *)
          raise (Exit 1)).

End methods.
End AliceCharacterOptions.

(** ** The commands *)

Section commands.
Context (w : World).

Definition _setup_emitter (general_config : GeneralConfig) : Cmd Emitter :=
  (* Banner *)
  let emitter := gc_emitter general_config in
  emit EvEmitterClear;;
  emit EvEmitterBanner;;
  mret emitter.

(** Create a brand new persistent Alice. *)
Definition init (general_config : GeneralConfig)
    (config_options : AliceConfigOptions.t) (config_root : option string)
    (poa light : bool) (m n rate : option Z) (duration_periods : option float)
    : Cmd unit :=
  emitter ← _setup_emitter general_config;
  let config_root :=
    if negb (truthy_str config_root) then gc_config_root general_config
    else config_root in
  new_alice_config ← AliceConfigOptions.generate_config w config_options
                       emitter config_root poa light m n duration_periods rate;
  emit (EvPaintNewInstallationHelp new_alice_config).

(** Start Alice's controller. *)
Definition run (general_config : GeneralConfig)
    (character_options : AliceCharacterOptions.t) (config_file : option string)
    (controller_port : Z) (dry_run : bool) : Cmd PyVal :=
  emitter ← _setup_emitter general_config;
  ALICE ← AliceCharacterOptions.create_character w character_options
            emitter config_file (gc_json_ipc general_config) true;
  try_except
    (if gc_json_ipc general_config then
       (* RPC *)
       emit EvMakeRpcController;;
       emit EvMakeControlTransport;;
       call EvRpcStart (rpc_start w ALICE);;
       mret PyNone
     else
       (* HTTP *)
       emit (EvEmitterMessage ("Alice Verifying Key " ++ hex (alice_stamp ALICE))
               (Some "green") true);;
       emit (EvMakeWebController (gc_debug general_config));;
       emit (EvLogInfo "Starting HTTP Character Web Controller");;
       emit (EvEmitterMessage
               ("Running HTTP Alice Controller at http://localhost:"
                ++ pretty controller_port) None false);;
       call (EvWebStart controller_port dry_run)
         (web_start w ALICE (gc_debug general_config) controller_port dry_run))
    (* Handle Crash *)
    is_Exception
    (λ e, emit (EvLogCritical (str_of e));;
          emit (EvEmitterMessage (class_name_of e ++ " " ++ str_of e)
                  (Some "red") true);;
          if gc_debug general_config then raise e (* Crash :-( *)
          else mret PyNone).

(** Create and enact an access policy for some Bob. *)
Definition grant (general_config : GeneralConfig)
    (bob_encrypting_key bob_verifying_key label : string)
    (m n : option Z) (expiration : option string) (value rate : option Z)
    (character_options : AliceCharacterOptions.t) (config_file : option string)
    : Cmd PyVal :=
  emitter ← _setup_emitter general_config;
  ALICE ← AliceCharacterOptions.create_character w character_options
            emitter config_file (gc_json_ipc general_config) true;
  (* Request *)
  let grant_request :=
    dict_of [ ("bob_encrypting_key", PyStr bob_encrypting_key);
              ("bob_verifying_key", PyStr bob_verifying_key);
              ("label", PyStr label);
              ("m", py_of_int m);
              ("n", py_of_int n);
              ("expiration", py_of_str expiration) ] in
  let grant_request :=
    if negb (alice_federated_only ALICE)
    then dict_update grant_request
           [ ("value", py_of_int value); ("rate", py_of_int rate) ]
    else grant_request in
  call (EvControllerGrant grant_request) (controller_grant w ALICE grant_request).

End commands.

(** ** Reading a trace *)

(** The calls that build or start a control-plane listener. *)
Definition is_listener_event (ev : Event) : bool :=
  match ev with
  | EvMakeRpcController | EvMakeControlTransport | EvRpcStart
  | EvMakeWebController _ | EvWebStart _ _ => true
  | _ => false
  end.

(** The single place where key material is unlocked. *)
Definition is_unlock_attempt (ev : Event) : bool :=
  match ev with
  | EvMakeCliCharacter _ => true
  | _ => false
  end.

(** The call that writes a new configuration to disk. *)
Definition is_generate (ev : Event) : bool :=
  match ev with
  | EvGenerate _ => true
  | _ => false
  end.

(** The call into the policy-granting service. *)
Definition is_grant_call (ev : Event) : bool :=
  match ev with
  | EvControllerGrant _ => true
  | _ => false
  end.

Definition failed {A} (c : Cmd A) : Prop := ∃ e, outcome c = Raise e.

(** ** Sample surroundings, used to run the commands on concrete inputs *)

Module Sample.

Definition emitter0 : Emitter := {| emitter_id := 0 |}.
Definition middleware0 : Middleware := {| middleware_id := 0 |}.

(** What a configuration file on disk holds; the keyword arguments
    override nothing but the emitter and the middleware here. *)
Definition stored (federated : bool) (a : AliceConfiguration.from_file_args)
    : AliceConfiguration.t :=
  {| AliceConfiguration.emitter := AliceConfiguration.ff_emitter a;
     AliceConfiguration.dev_mode := false;
     AliceConfiguration.network_middleware :=
       AliceConfiguration.ff_network_middleware a;
     AliceConfiguration.domains := Some {[ "goerli" ]};
     AliceConfiguration.provider_process := NO_BLOCKCHAIN_CONNECTION;
     AliceConfiguration.provider_uri :=
       if federated then None else Some "ipc:///tmp/geth.ipc";
     AliceConfiguration.federated_only := federated;
     AliceConfiguration.checksum_address :=
       if federated then None
       else Some "0xdeadbeefdeadbeefdeadbeefdeadbeefdeadbeef" |}.

Definition alice_of (a : make_cli_character_args) : Alice :=
  {| alice_federated_only :=
       AliceConfiguration.federated_only (mc_character_config a);
     alice_stamp := [Byte.x02; Byte.xab] |}.

(** A world with a configuration file in place, a keyring that opens,
    and no password in the environment. *)
Definition world (federated : bool) : World :=
  {| TEMPORARY_DOMAIN := ":TEMPORARY_DOMAIN:";
     NUCYPHER_ENVVAR_ALICE_ETH_PASSWORD := "NUCYPHER_ALICE_ETH_PASSWORD";
     environ := ∅;
     get_provider_process := Return "/tmp/geth.ipc";
     from_configuration_file := λ a, Return (stored federated a);
     interactive_creation := λ _, Raise (PyException "Abort" "");
     select_client_account := λ _,
       Return "0xdeadbeefdeadbeefdeadbeefdeadbeefdeadbeef";
     get_nucypher_password := λ _, Return "keyring password";
     generate := λ a,
       Return {| AliceConfiguration.emitter := emitter0;
                 AliceConfiguration.dev_mode := false;
                 AliceConfiguration.network_middleware := middleware0;
                 AliceConfiguration.domains := AliceConfiguration.g_domains a;
                 AliceConfiguration.provider_process :=
                   AliceConfiguration.g_provider_process a;
                 AliceConfiguration.provider_uri :=
                   AliceConfiguration.g_provider_uri a;
                 AliceConfiguration.federated_only :=
                   truthy_flag (AliceConfiguration.g_federated_only a);
                 AliceConfiguration.checksum_address :=
                   AliceConfiguration.g_checksum_address a |};
     get_client_password := λ _, Return "account password";
     make_cli_character := λ a, Return (alice_of a);
     rpc_start := λ _, Return tt;
     web_start := λ _ _ _ _, Return PyNone;
     controller_grant := λ _ _, Return (PyStr "receipt") |}.

(** The same world with no configuration file on disk. *)
Definition world_without_file : World :=
  {| TEMPORARY_DOMAIN := TEMPORARY_DOMAIN (world false);
     NUCYPHER_ENVVAR_ALICE_ETH_PASSWORD :=
       NUCYPHER_ENVVAR_ALICE_ETH_PASSWORD (world false);
     environ := environ (world false);
     get_provider_process := get_provider_process (world false);
     from_configuration_file := λ _, Raise (FileNotFoundError "alice.json");
     interactive_creation := interactive_creation (world false);
     select_client_account := select_client_account (world false);
     get_nucypher_password := get_nucypher_password (world false);
     generate := generate (world false);
     get_client_password := get_client_password (world false);
     make_cli_character := make_cli_character (world false);
     rpc_start := rpc_start (world false);
     web_start := web_start (world false);
     controller_grant := controller_grant (world false) |}.

(** The same world with a keyring that rejects the password. *)
Definition world_wrong_password : World :=
  {| TEMPORARY_DOMAIN := TEMPORARY_DOMAIN (world false);
     NUCYPHER_ENVVAR_ALICE_ETH_PASSWORD :=
       NUCYPHER_ENVVAR_ALICE_ETH_PASSWORD (world false);
     environ := environ (world false);
     get_provider_process := get_provider_process (world false);
     from_configuration_file := from_configuration_file (world false);
     interactive_creation := interactive_creation (world false);
     select_client_account := select_client_account (world false);
     get_nucypher_password := get_nucypher_password (world false);
     generate := generate (world false);
     get_client_password := get_client_password (world false);
     make_cli_character := λ _, Raise (AuthenticationFailed "Incorrect password");
     rpc_start := rpc_start (world false);
     web_start := web_start (world false);
     controller_grant := controller_grant (world false) |}.

Definition general (json_ipc : bool) : GeneralConfig :=
  {| gc_emitter := emitter0;
     gc_json_ipc := json_ipc;
     gc_debug := false;
     gc_config_root := None |}.

(** Options as [__init__] stores them without [--geth]. *)
Definition config_options (dev : bool) (federated_only : option bool)
    (provider_uri : option string) : AliceConfigOptions.t :=
  {| AliceConfigOptions.dev := dev;
     AliceConfigOptions.domains := Some {[ "goerli" ]};
     AliceConfigOptions.provider_uri := provider_uri;
     AliceConfigOptions.geth := false;
     AliceConfigOptions.federated_only := federated_only;
     AliceConfigOptions.eth_node := NO_BLOCKCHAIN_CONNECTION;
     AliceConfigOptions.pay_with := None;
     AliceConfigOptions.discovery_port := Some 9151;
     AliceConfigOptions.registry_filepath := None;
     AliceConfigOptions.middleware := middleware0 |}.

Definition character_options (dev : bool) (federated_only : option bool)
    : AliceCharacterOptions.t :=
  AliceCharacterOptions.__init__
    (config_options dev federated_only None) false None 0.

End Sample.

(** The messages of the usage errors. *)
Definition geth_message : string :=
  "--federated-only cannot be used with the --geth flag".
Definition dev_federated_message : string :=
  "--federated-only cannot be explicitly set to False when --dev is set".
Definition provider_message : string :=
  "--provider is required to create a new decentralized alice.".
Definition persistent_dev_message : string :=
  "Cannot create a persistent development character".

(** ** The commands that only reach a controller or the configuration

    [destroy], [public-keys], [derive-policy-pubkey], [revoke] and
    [decrypt] make calls the commands above never make.  Their traces hold
    the calls above on the left and these on the right. *)

Inductive ControlEvent : Type :=
  | EvDestroyConfiguration (character_config : AliceConfiguration.t) (force : bool)
  | EvControllerPublicKeys
  | EvControllerDerivePolicyEncryptingKey (label : string)
  | EvControllerRevoke (request : gmap string PyVal)
  | EvControllerDecrypt (request : gmap string PyVal).

(** What [actions.destroy_configuration] and the methods of
    [ALICE.controller] answer. *)
Record Controller : Type := {
  destroy_configuration : AliceConfiguration.t → bool → Outcome PyVal;
  controller_public_keys : Alice → Outcome PyVal;
  controller_derive_policy_encrypting_key : Alice → string → Outcome PyVal;
  controller_revoke : Alice → gmap string PyVal → Outcome PyVal;
  controller_decrypt : Alice → gmap string PyVal → Outcome PyVal;
}.

Definition XCmd (A : Type) : Type := (list (Event + ControlEvent) * Outcome A)%type.

Global Instance XCmd_ret : MRet XCmd := λ A a, ([], Return a).

Global Instance XCmd_bind : MBind XCmd := λ A B k c,
  match c with
  | (t, Return a) => let '(t', o) := k a in ((t ++ t')%list, o)
  | (t, Raise e) => (t, Raise e)
  end.

(** A computation of the first kind, run as part of one of these commands. *)
Definition lift {A} (c : Cmd A) : XCmd A := (List.map inl (fst c), snd c).

Definition xcall {A} (ev : ControlEvent) (answer : Outcome A) : XCmd A :=
  ([inr ev], answer).

Definition trace_x {A} (c : XCmd A) : list (Event + ControlEvent) := fst c.
Definition outcome_x {A} (c : XCmd A) : Outcome A := snd c.

Section more_commands.
Context (w : World) (ctl : Controller).

(** Delete existing Alice's configuration. *)
Definition destroy (general_config : GeneralConfig)
    (config_options : AliceConfigOptions.t) (config_file : option string)
    (force : bool) : XCmd PyVal :=
  emitter ← lift (_setup_emitter general_config);
  alice_config ← lift (AliceConfigOptions.create_config w config_options
                         emitter config_file);
  xcall (EvDestroyConfiguration alice_config force)
    (destroy_configuration ctl alice_config force).

(** Obtain Alice's public verification and encryption keys. *)
Definition public_keys (general_config : GeneralConfig)
    (character_options : AliceCharacterOptions.t) (config_file : option string)
    : XCmd PyVal :=
  emitter ← lift (_setup_emitter general_config);
  ALICE ← lift (AliceCharacterOptions.create_character w character_options
                  emitter config_file (gc_json_ipc general_config) false);
  response ← xcall EvControllerPublicKeys (controller_public_keys ctl ALICE);
  mret response.

(** Get a policy public key from a policy label. *)
Definition derive_policy_pubkey (general_config : GeneralConfig) (label : string)
    (character_options : AliceCharacterOptions.t) (config_file : option string)
    : XCmd PyVal :=
  emitter ← lift (_setup_emitter general_config);
  ALICE ← lift (AliceCharacterOptions.create_character w character_options
                  emitter config_file (gc_json_ipc general_config) false);
  xcall (EvControllerDerivePolicyEncryptingKey label)
    (controller_derive_policy_encrypting_key ctl ALICE label).

(** Revoke a policy. *)
Definition revoke (general_config : GeneralConfig)
    (bob_verifying_key label : string)
    (character_options : AliceCharacterOptions.t) (config_file : option string)
    : XCmd PyVal :=
  emitter ← lift (_setup_emitter general_config);
  ALICE ← lift (AliceCharacterOptions.create_character w character_options
                  emitter config_file (gc_json_ipc general_config) true);
  (* Request *)
  let revoke_request :=
    dict_of [ ("label", PyStr label);
              ("bob_verifying_key", PyStr bob_verifying_key) ] in
  xcall (EvControllerRevoke revoke_request)
    (controller_revoke ctl ALICE revoke_request).

(** Decrypt data encrypted under an Alice's policy public key. *)
Definition decrypt (general_config : GeneralConfig) (label message_kit : string)
    (character_options : AliceCharacterOptions.t) (config_file : option string)
    : XCmd PyVal :=
  emitter ← lift (_setup_emitter general_config);
  ALICE ← lift (AliceCharacterOptions.create_character w character_options
                  emitter config_file (gc_json_ipc general_config) false);
  (* Request *)
  let request_data :=
    dict_of [ ("label", PyStr label); ("message_kit", PyStr message_kit) ] in
  response ← xcall (EvControllerDecrypt request_data)
               (controller_decrypt ctl ALICE request_data);
  mret response.

End more_commands.

(** ** More ways to read a trace *)

Definition is_client_password_prompt (ev : Event) : bool :=
  match ev with EvGetClientPassword _ => true | _ => false end.

Definition is_select_account (ev : Event) : bool :=
  match ev with EvSelectClientAccount _ _ => true | _ => false end.

Definition is_rpc_event (ev : Event) : bool :=
  match ev with
  | EvMakeRpcController | EvMakeControlTransport | EvRpcStart => true
  | _ => false
  end.

Definition is_web_event (ev : Event) : bool :=
  match ev with
  | EvMakeWebController _ | EvWebStart _ _ => true
  | _ => false
  end.

Definition is_start (ev : Event) : bool :=
  match ev with
  | EvRpcStart | EvWebStart _ _ => true
  | _ => false
  end.

Definition is_crash_report (ev : Event) : bool :=
  match ev with EvLogCritical _ => true | _ => false end.

(** A call of the second kind. *)
Definition is_control_call (ev : Event + ControlEvent) : bool :=
  match ev with inr _ => true | inl _ => false end.

(** The outcome of starting the controller [run] picks. *)
Definition start_outcome (w : World) (general_config : GeneralConfig)
    (ALICE : Alice) (controller_port : Z) (dry_run : bool) : Outcome PyVal :=
  if gc_json_ipc general_config then
    match rpc_start w ALICE with
    | Return _ => Return PyNone
    | Raise e => Raise e
    end
  else web_start w ALICE (gc_debug general_config) controller_port dry_run.

(** Whether [create_character] takes a client password for [config]. *)
Definition eth_password_is_needed (self : AliceCharacterOptions.t)
    (config : AliceConfiguration.t) : bool :=
  negb (AliceConfiguration.federated_only config)
  && negb (AliceCharacterOptions.hw_wallet self)
  && negb (AliceConfiguration.dev_mode config).

(** The keyword arguments of the one [make_cli_character] call of
    [create_character], given the configuration and the client password. *)
Definition unlock_args (self : AliceCharacterOptions.t) (emitter : Emitter)
    (config : AliceConfiguration.t) (client_password : ClientPassword)
    (load_seednodes : bool) : make_cli_character_args :=
  {| mc_character_config := config;
     mc_emitter := emitter;
     mc_unlock_keyring := negb (AliceConfiguration.dev_mode config);
     mc_teacher_uri := AliceCharacterOptions.teacher_uri self;
     mc_min_stake := AliceCharacterOptions.min_stake self;
     mc_client_password := client_password;
     mc_load_preferred_teachers := load_seednodes;
     mc_start_learning_now := load_seednodes |}.

(** The [try] block of [create_character], run after the calls [before]. *)
Definition unlock_attempt (w : World) (before : list Event)
    (args : make_cli_character_args) : Cmd Alice :=
  match make_cli_character w args with
  | Return alice => ((before ++ [EvMakeCliCharacter args])%list, Return alice)
  | Raise e =>
      if is_AuthenticationFailed e
      then ((before ++ [EvMakeCliCharacter args;
                        EvEmitterEcho (str_of e) "red" true])%list,
            Raise (Exit 1))
      else ((before ++ [EvMakeCliCharacter args])%list, Raise e)
  end.

(** ** More sample surroundings *)

Module Scenario.

(** [w] with another process environment. *)
Definition with_environ (w : World)
    (answer : gmap string string) : World :=
  {| TEMPORARY_DOMAIN := TEMPORARY_DOMAIN w;
     NUCYPHER_ENVVAR_ALICE_ETH_PASSWORD := NUCYPHER_ENVVAR_ALICE_ETH_PASSWORD w;
     environ := answer;
     get_provider_process := get_provider_process w;
     from_configuration_file := from_configuration_file w;
     interactive_creation := interactive_creation w;
     select_client_account := select_client_account w;
     get_nucypher_password := get_nucypher_password w;
     generate := generate w;
     get_client_password := get_client_password w;
     make_cli_character := make_cli_character w;
     rpc_start := rpc_start w;
     web_start := web_start w;
     controller_grant := controller_grant w |}.

(** [w] with another answer of the configuration loader. *)
Definition with_from_configuration_file (w : World)
    (answer : AliceConfiguration.from_file_args → Outcome AliceConfiguration.t) : World :=
  {| TEMPORARY_DOMAIN := TEMPORARY_DOMAIN w;
     NUCYPHER_ENVVAR_ALICE_ETH_PASSWORD := NUCYPHER_ENVVAR_ALICE_ETH_PASSWORD w;
     environ := environ w;
     get_provider_process := get_provider_process w;
     from_configuration_file := answer;
     interactive_creation := interactive_creation w;
     select_client_account := select_client_account w;
     get_nucypher_password := get_nucypher_password w;
     generate := generate w;
     get_client_password := get_client_password w;
     make_cli_character := make_cli_character w;
     rpc_start := rpc_start w;
     web_start := web_start w;
     controller_grant := controller_grant w |}.

(** [w] with another answer of the client password prompt. *)
Definition with_get_client_password (w : World)
    (answer : option string → Outcome string) : World :=
  {| TEMPORARY_DOMAIN := TEMPORARY_DOMAIN w;
     NUCYPHER_ENVVAR_ALICE_ETH_PASSWORD := NUCYPHER_ENVVAR_ALICE_ETH_PASSWORD w;
     environ := environ w;
     get_provider_process := get_provider_process w;
     from_configuration_file := from_configuration_file w;
     interactive_creation := interactive_creation w;
     select_client_account := select_client_account w;
     get_nucypher_password := get_nucypher_password w;
     generate := generate w;
     get_client_password := answer;
     make_cli_character := make_cli_character w;
     rpc_start := rpc_start w;
     web_start := web_start w;
     controller_grant := controller_grant w |}.

(** [w] with another answer of the keyring. *)
Definition with_make_cli_character (w : World)
    (answer : make_cli_character_args → Outcome Alice) : World :=
  {| TEMPORARY_DOMAIN := TEMPORARY_DOMAIN w;
     NUCYPHER_ENVVAR_ALICE_ETH_PASSWORD := NUCYPHER_ENVVAR_ALICE_ETH_PASSWORD w;
     environ := environ w;
     get_provider_process := get_provider_process w;
     from_configuration_file := from_configuration_file w;
     interactive_creation := interactive_creation w;
     select_client_account := select_client_account w;
     get_nucypher_password := get_nucypher_password w;
     generate := generate w;
     get_client_password := get_client_password w;
     make_cli_character := answer;
     rpc_start := rpc_start w;
     web_start := web_start w;
     controller_grant := controller_grant w |}.

(** [w] with another answer of the RPC controller. *)
Definition with_rpc_start (w : World)
    (answer : Alice → Outcome unit) : World :=
  {| TEMPORARY_DOMAIN := TEMPORARY_DOMAIN w;
     NUCYPHER_ENVVAR_ALICE_ETH_PASSWORD := NUCYPHER_ENVVAR_ALICE_ETH_PASSWORD w;
     environ := environ w;
     get_provider_process := get_provider_process w;
     from_configuration_file := from_configuration_file w;
     interactive_creation := interactive_creation w;
     select_client_account := select_client_account w;
     get_nucypher_password := get_nucypher_password w;
     generate := generate w;
     get_client_password := get_client_password w;
     make_cli_character := make_cli_character w;
     rpc_start := answer;
     web_start := web_start w;
     controller_grant := controller_grant w |}.

(** [w] with another answer of the web controller. *)
Definition with_web_start (w : World)
    (answer : Alice → bool → Z → bool → Outcome PyVal) : World :=
  {| TEMPORARY_DOMAIN := TEMPORARY_DOMAIN w;
     NUCYPHER_ENVVAR_ALICE_ETH_PASSWORD := NUCYPHER_ENVVAR_ALICE_ETH_PASSWORD w;
     environ := environ w;
     get_provider_process := get_provider_process w;
     from_configuration_file := from_configuration_file w;
     interactive_creation := interactive_creation w;
     select_client_account := select_client_account w;
     get_nucypher_password := get_nucypher_password w;
     generate := generate w;
     get_client_password := get_client_password w;
     make_cli_character := make_cli_character w;
     rpc_start := rpc_start w;
     web_start := answer;
     controller_grant := controller_grant w |}.

(** [w] with another answer of the configuration writer. *)
Definition with_generate (w : World)
    (answer : AliceConfiguration.generate_args → Outcome AliceConfiguration.t) : World :=
  {| TEMPORARY_DOMAIN := TEMPORARY_DOMAIN w;
     NUCYPHER_ENVVAR_ALICE_ETH_PASSWORD := NUCYPHER_ENVVAR_ALICE_ETH_PASSWORD w;
     environ := environ w;
     get_provider_process := get_provider_process w;
     from_configuration_file := from_configuration_file w;
     interactive_creation := interactive_creation w;
     select_client_account := select_client_account w;
     get_nucypher_password := get_nucypher_password w;
     generate := answer;
     get_client_password := get_client_password w;
     make_cli_character := make_cli_character w;
     rpc_start := rpc_start w;
     web_start := web_start w;
     controller_grant := controller_grant w |}.

(** The controllers and the configuration remover, all answering. *)
Definition controller : Controller :=
  {| destroy_configuration := λ _ _, Return PyNone;
     controller_public_keys := λ _, Return (PyStr "02ab 03cd");
     controller_derive_policy_encrypting_key := λ _ label, Return (PyStr label);
     controller_revoke := λ _ _, Return (PyStr "revoked");
     controller_decrypt := λ _ _, Return (PyStr "cleartext") |}.

(** A configuration file that cannot be parsed. *)
Definition world_corrupt_file : World :=
  with_from_configuration_file (Sample.world false)
    (λ _, Raise (PyException "JSONDecodeError" "Expecting value")).

(** A keyring that fails for another reason than the password. *)
Definition world_keyring_error : World :=
  with_make_cli_character (Sample.world false)
    (λ _, Raise (PyException "OSError" "keyring not readable")).

(** A client password prompt that is interrupted. *)
Definition world_prompt_aborted : World :=
  with_get_client_password (Sample.world false)
    (λ _, Raise (PyException "Abort" "")).

(** The password variable set in the environment. *)
Definition world_with_envvar : World :=
  with_environ (Sample.world false)
    {[ "NUCYPHER_ALICE_ETH_PASSWORD" := "from the environment" ]}.

(** Controllers that crash on start. *)
Definition world_crashing (federated : bool) : World :=
  with_rpc_start
    (with_web_start (Sample.world federated)
       (λ _ _ _ _, Raise (PyException "OSError" "address already in use")))
    (λ _, Raise (PyException "OSError" "broken pipe")).

(** Controllers that are interrupted from the keyboard. *)
Definition world_interrupted (federated : bool) : World :=
  with_rpc_start
    (with_web_start (Sample.world federated)
       (λ _ _ _ _, Raise (PyBaseException "KeyboardInterrupt" "")))
    (λ _, Raise (PyBaseException "KeyboardInterrupt" "")).

(** A web controller that answers with the port it was started on. *)
Definition world_echoing_port : World :=
  with_web_start (Sample.world true) (λ _ _ port _, Return (PyInt port)).

Definition debug_general (json_ipc : bool) : GeneralConfig :=
  {| gc_emitter := Sample.emitter0;
     gc_json_ipc := json_ipc;
     gc_debug := true;
     gc_config_root := Some "/home/alice/.nucypher" |}.

End Scenario.

(** The calls of [run] from the making of the controller to its start. *)
Definition start_calls (general_config : GeneralConfig) (ALICE : Alice)
    (controller_port : Z) (dry_run : bool) : list Event :=
  if gc_json_ipc general_config then
    [EvMakeRpcController; EvMakeControlTransport; EvRpcStart]
  else
    [EvEmitterMessage ("Alice Verifying Key " ++ hex (alice_stamp ALICE))
       (Some "green") true;
     EvMakeWebController (gc_debug general_config);
     EvLogInfo "Starting HTTP Character Web Controller";
     EvEmitterMessage
       ("Running HTTP Alice Controller at http://localhost:"
        ++ pretty controller_port) None false;
     EvWebStart controller_port dry_run].

(** The calls of the crash handler of [run]. *)
Definition crash_calls (e : exn) : list Event :=
  [EvLogCritical (str_of e);
   EvEmitterMessage (class_name_of e ++ " " ++ str_of e) (Some "red") true].

(** The request [grant] starts from. *)
Definition base_grant_request
    (bob_encrypting_key bob_verifying_key label : string)
    (m n : option Z) (expiration : option string) : gmap string PyVal :=
  dict_of [ ("bob_encrypting_key", PyStr bob_encrypting_key);
            ("bob_verifying_key", PyStr bob_verifying_key);
            ("label", PyStr label);
            ("m", py_of_int m);
            ("n", py_of_int n);
            ("expiration", py_of_str expiration) ].

(** ** Theorems *)

Ltac cmd_unfold :=
  unfold mbind, mret, Cmd_bind, Cmd_ret, raise_if, raise, call, emit, discard,
    try_except, handle_missing_configuration_file, trace, outcome in *.

Ltac cmd_simpl := cmd_unfold; cbn in *.

Section ConfigOptions.
Context (w : World).
Import AliceConfigOptions.

(** C5: when both --geth and --federated-only are requested, building the
    options fails with BadOptionUsage on --geth (IncompatibleModeFlags)
    with an empty trace, so the managed client is not staged; the failure
    comes first, whatever is to follow. *)
Theorem init_geth_federated_only_rejected
    (dev : bool) (network provider_uri : option string)
    (discovery_port : option Z) (pay_with registry_filepath : option string)
    (middleware : Middleware) :
  let built := __init__ w dev network provider_uri true (Some true)
                 discovery_port pay_with registry_filepath middleware in
  built = ([], Raise (BadOptionUsage "--geth" geth_message))
  ∧ error_kind (BadOptionUsage "--geth" geth_message) = Some IncompatibleModeFlags
  ∧ ∀ (B : Type) (next : t → Cmd B),
      built ≫= next = ([], Raise (BadOptionUsage "--geth" geth_message)).
Proof.
  cbv zeta. split; [reflexivity | split; [reflexivity | ]].
  intros B next. reflexivity.
Qed.

(** C3: in dev mode, [create_config] with --federated-only explicitly
    False fails with BadOptionUsage on --federated-only
    (InvalidEphemeralFederation) and an empty trace; with the flag unset
    or True it returns a configuration, again with an empty trace. *)
Theorem create_config_dev_federated_only
    (self : t) (emitter : Emitter) (config_file : option string) :
  dev self = true →
  (federated_only self = Some false →
     create_config w self emitter config_file
     = ([], Raise (BadOptionUsage "--federated-only" dev_federated_message))
     ∧ error_kind (BadOptionUsage "--federated-only" dev_federated_message)
       = Some InvalidEphemeralFederation)
  ∧ (federated_only self ≠ Some false →
       ∃ config, create_config w self emitter config_file = ([], Return config)).
Proof.
  intros Hdev. unfold create_config. rewrite Hdev. split.
  - intros ->. split; reflexivity.
  - intros Hfed. eexists.
    destruct (federated_only self) as [[|]|]; [reflexivity | congruence | reflexivity].
Qed.

(** The configuration a dev-mode [create_config] returns, spelled out. *)
Lemma create_config_dev_returns
    (self : t) (emitter : Emitter) (config_file : option string)
    (tr : list Event) (config : AliceConfiguration.t) :
  dev self = true →
  create_config w self emitter config_file = (tr, Return config) →
  tr = []
  ∧ config = {| AliceConfiguration.emitter := emitter;
                AliceConfiguration.dev_mode := true;
                AliceConfiguration.network_middleware := middleware self;
                AliceConfiguration.domains := Some {[ TEMPORARY_DOMAIN w ]};
                AliceConfiguration.provider_process := eth_node self;
                AliceConfiguration.provider_uri := provider_uri self;
                AliceConfiguration.federated_only := true;
                AliceConfiguration.checksum_address := None |}.
Proof.
  intros Hdev. unfold create_config. rewrite Hdev.
  destruct (is_False (federated_only self)); cmd_simpl; intros H.
  - discriminate.
  - injection H as <- <-. split; reflexivity.
Qed.

(** The options object, as far as dev-mode [create_config] reads it, does
    not depend on network, pay_with, discovery_port, registry_filepath. *)
Lemma init_then_create_config_dev_ignores
    (network network' provider_uri : option string) (geth : bool)
    (fed : option bool) (discovery_port discovery_port' : option Z)
    (pay_with pay_with' registry_filepath registry_filepath' : option string)
    (mw : Middleware) (emitter : Emitter) (config_file : option string) :
  (opts ← __init__ w true network provider_uri geth fed
            discovery_port pay_with registry_filepath mw;
   create_config w opts emitter config_file)
  = (opts ← __init__ w true network' provider_uri geth fed
              discovery_port' pay_with' registry_filepath' mw;
     create_config w opts emitter config_file).
Proof.
  unfold __init__.
  destruct (truthy_flag fed && geth); [reflexivity | ].
  destruct geth; [destruct (get_provider_process w) | ]; reflexivity.
Qed.

(** C10: a configuration resolved from raw parameters in dev mode has
    federated_only = True and the temporary development domain as its
    only domain, and the whole resolution (trace and configuration) is
    the same for any other network, pay_with, discovery_port and
    registry_filepath. *)
Theorem dev_config_federated_temporary_domain
    (network provider_uri : option string) (geth : bool) (fed : option bool)
    (discovery_port : option Z) (pay_with registry_filepath : option string)
    (mw : Middleware) (emitter : Emitter) (config_file : option string)
    (tr : list Event) (config : AliceConfiguration.t) :
  (opts ← __init__ w true network provider_uri geth fed
            discovery_port pay_with registry_filepath mw;
   create_config w opts emitter config_file) = (tr, Return config) →
  AliceConfiguration.federated_only config = true
  ∧ AliceConfiguration.domains config = Some {[ TEMPORARY_DOMAIN w ]}
  ∧ AliceConfiguration.dev_mode config = true
  ∧ ∀ (network' : option string) (discovery_port' : option Z)
      (pay_with' registry_filepath' : option string),
      (opts ← __init__ w true network' provider_uri geth fed
                discovery_port' pay_with' registry_filepath' mw;
       create_config w opts emitter config_file) = (tr, Return config).
Proof.
  intros H.
  assert (Hshape : AliceConfiguration.federated_only config = true
                   ∧ AliceConfiguration.domains config
                     = Some {[ TEMPORARY_DOMAIN w ]}
                   ∧ AliceConfiguration.dev_mode config = true).
  { revert H. unfold __init__.
    destruct (truthy_flag fed && geth); [cmd_simpl; discriminate | ].
    destruct geth; [destruct (get_provider_process w) | ];
      cmd_simpl; try discriminate;
      destruct (is_False fed); cmd_simpl; try discriminate;
      intros H; injection H as _ <-; repeat split. }
  destruct Hshape as (Hf & Hd & Hm). repeat split; try assumption.
  intros network' discovery_port' pay_with' registry_filepath'.
  rewrite <- H. apply init_then_create_config_dev_ignores.
Qed.

(** C6: outside dev mode, when loading the configuration file raises
    FileNotFoundError, [create_config] catches it and signals the missing
    file to the handler with the same path; the outcome of
    [create_config] is then what the offered creation ends in. *)
Theorem create_config_missing_file_recoverable
    (self : t) (emitter : Emitter) (config_file : option string)
    (message : string) :
  let args :=
    {| AliceConfiguration.ff_emitter := emitter;
       AliceConfiguration.ff_dev_mode := false;
       AliceConfiguration.ff_network_middleware := middleware self;
       AliceConfiguration.ff_domains := domains self;
       AliceConfiguration.ff_provider_process := eth_node self;
       AliceConfiguration.ff_provider_uri := provider_uri self;
       AliceConfiguration.ff_filepath := config_file;
       AliceConfiguration.ff_rest_port := discovery_port self;
       AliceConfiguration.ff_checksum_address := pay_with self;
       AliceConfiguration.ff_registry_filepath := registry_filepath self |} in
  dev self = false →
  from_configuration_file w args = Raise (FileNotFoundError message) →
  create_config w self emitter config_file
  = ([EvFromConfigurationFile args;
      EvHandleMissingConfigurationFile config_file],
     interactive_creation w config_file).
Proof.
  intros args Hdev Hload. unfold create_config. rewrite Hdev.
  fold args. rewrite Hload. reflexivity.
Qed.

(** C7: generating a persistent configuration (not dev) with a falsy
    provider URI and --federated-only not set to True fails with
    BadOptionUsage on --provider (MissingProviderURI) and an empty trace:
    no account selection, no password prompt, nothing written. *)
Theorem generate_config_requires_provider
    (self : t) (emitter : Emitter) (config_root : option string)
    (poa light : bool) (m n : option Z) (duration_periods : option float)
    (rate : option Z) :
  dev self = false →
  truthy_str (provider_uri self) = false →
  truthy_flag (federated_only self) = false →
  generate_config w self emitter config_root poa light m n duration_periods rate
  = ([], Raise (BadOptionUsage "--provider" provider_message))
  ∧ error_kind (BadOptionUsage "--provider" provider_message)
    = Some MissingProviderURI.
Proof.
  intros Hdev Huri Hfed. unfold generate_config.
  rewrite Hdev, Huri, Hfed. split; reflexivity.
Qed.

(** [generate_config] in dev mode stops at its first statement. *)
Lemma generate_config_dev
    (self : t) (emitter : Emitter) (config_root : option string)
    (poa light : bool) (m n : option Z) (duration_periods : option float)
    (rate : option Z) :
  dev self = true →
  generate_config w self emitter config_root poa light m n duration_periods rate
  = ([], Raise (BadArgumentUsage persistent_dev_message)).
Proof.
  intros Hdev. unfold generate_config. rewrite Hdev. reflexivity.
Qed.

(** C9: with --dev, [generate_config] fails with BadArgumentUsage before
    anything else, and so does the [init] command after its banner: its
    trace holds no call to [AliceConfiguration.generate], nothing is
    written to disk. *)
Theorem init_dev_never_persists
    (general_config : GeneralConfig) (self : t) (config_root : option string)
    (poa light : bool) (m n rate : option Z) (duration_periods : option float) :
  dev self = true →
  generate_config w self (gc_emitter general_config) config_root
    poa light m n duration_periods rate
  = ([], Raise (BadArgumentUsage persistent_dev_message))
  ∧ init w general_config self config_root poa light m n rate duration_periods
    = ([EvEmitterClear; EvEmitterBanner],
       Raise (BadArgumentUsage persistent_dev_message))
  ∧ existsb is_generate
      (trace (init w general_config self config_root poa light m n rate
                duration_periods)) = false.
Proof.
  intros Hdev. split; [by apply generate_config_dev | ].
  assert (Hinit : init w general_config self config_root poa light m n rate
                    duration_periods
                  = ([EvEmitterClear; EvEmitterBanner],
                     Raise (BadArgumentUsage persistent_dev_message))).
  { unfold init, _setup_emitter. cmd_simpl.
    rewrite generate_config_dev by assumption. reflexivity. }
  rewrite Hinit. split; reflexivity.
Qed.

End ConfigOptions.

Section CharacterOptions.
Context (w : World).
Import AliceCharacterOptions.

Lemma existsb_false_not_In (f : Event → bool) (tr : list Event) (ev : Event) :
  existsb f tr = false → f ev = true → ¬ In ev tr.
Proof.
  intros Hnone Hev Hin.
  assert (existsb f tr = true) by (apply existsb_exists; eauto).
  congruence.
Qed.

(** Resolving the configuration neither unlocks anything nor touches a
    listener. *)
Lemma create_config_trace_quiet
    (self : AliceConfigOptions.t) (emitter : Emitter)
    (config_file : option string) :
  let tr := trace (AliceConfigOptions.create_config w self emitter config_file) in
  existsb is_unlock_attempt tr = false ∧ existsb is_listener_event tr = false.
Proof.
  unfold AliceConfigOptions.create_config.
  destruct (AliceConfigOptions.dev self).
  - destruct (is_False (AliceConfigOptions.federated_only self));
      split; reflexivity.
  - cmd_unfold.
    destruct (from_configuration_file w _) as [config|e];
      [split; reflexivity | ].
    destruct (is_FileNotFoundError e); split; reflexivity.
Qed.

(** The two ways [create_character] can go: it stops before the keyring
    is touched, or it makes exactly one unlock attempt, whose
    AuthenticationFailed is echoed and turned into [Exit 1]. *)
Lemma create_character_cases
    (self : t) (emitter : Emitter) (config_file : option string)
    (json_ipc load_seednodes : bool) :
  (∃ tr e,
      create_character w self emitter config_file json_ipc load_seednodes
      = (tr, Raise e)
      ∧ existsb is_unlock_attempt tr = false
      ∧ existsb is_listener_event tr = false)
  ∨ (∃ tr args,
        existsb is_unlock_attempt tr = false
        ∧ existsb is_listener_event tr = false
        ∧ create_character w self emitter config_file json_ipc load_seednodes
          = match make_cli_character w args with
            | Return alice => ((tr ++ [EvMakeCliCharacter args])%list, Return alice)
            | Raise e =>
                if is_AuthenticationFailed e
                then ((tr ++ [EvMakeCliCharacter args;
                              EvEmitterEcho (str_of e) "red" true])%list,
                      Raise (Exit 1))
                else ((tr ++ [EvMakeCliCharacter args])%list, Raise e)
            end).
Proof.
unfold create_character.
pose proof (create_config_trace_quiet (config_options self) emitter config_file)
  as [Hu Hl]. cbv zeta in Hu, Hl.
destruct (AliceConfigOptions.create_config w (config_options self) emitter
            config_file) as [tr [config|e]]; cbn [trace fst] in Hu, Hl.
2: { left. exists tr, e. repeat split; assumption. }
cmd_simpl.
destruct (negb (AliceConfiguration.federated_only config) && negb (hw_wallet self)
          && negb (AliceConfiguration.dev_mode config));
  [ destruct json_ipc;
    [ destruct (is_NO_PASSWORD (environ_get_password w))
    | destruct (get_client_password w _) as [p|e] ] | ];
  cmd_simpl.
4: { left. eexists _, e. split; [reflexivity | ].
     rewrite !existsb_app, Hu, Hl. split; reflexivity. }
all: right.
3: match goal with
   | |- context [EvMakeCliCharacter ?a] =>
       exists (tr ++ [EvGetClientPassword
                        (AliceConfiguration.checksum_address config)])%list, a
   end.
1, 2, 4: match goal with
         | |- context [EvMakeCliCharacter ?a] => exists tr, a
         end.
all: rewrite ?existsb_app, Hu, Hl; split; [reflexivity | split; [reflexivity | ]].
all: destruct (make_cli_character w _) as [alice|e]; cbn;
  try destruct (is_AuthenticationFailed e); cbn;
  rewrite <- ?app_assoc; reflexivity.
Qed.

(** When the unlock attempt [create_character] makes is answered
    AuthenticationFailed, the message is echoed and [Exit 1] is raised;
    that attempt is the only one. *)
Lemma create_character_wrong_password
    (self : t) (emitter : Emitter) (config_file : option string)
    (json_ipc load_seednodes : bool)
    (a : make_cli_character_args) (message : string) :
  In (EvMakeCliCharacter a)
    (trace (create_character w self emitter config_file json_ipc load_seednodes)) →
  make_cli_character w a = Raise (AuthenticationFailed message) →
  ∃ tr,
    create_character w self emitter config_file json_ipc load_seednodes
    = ((tr ++ [EvMakeCliCharacter a; EvEmitterEcho message "red" true])%list,
       Raise (Exit 1))
    ∧ existsb is_unlock_attempt tr = false
    ∧ existsb is_listener_event tr = false.
Proof.
  intros Hin Hauth.
  destruct (create_character_cases self emitter config_file json_ipc load_seednodes)
    as [(tr & e & Heq & Hu & Hl) | (tr & args & Hu & Hl & Heq)];
    rewrite Heq in Hin |- *; cbn [trace fst] in Hin.
  - exfalso. revert Hin. by apply (existsb_false_not_In is_unlock_attempt).
  - assert (Hargs : a = args).
    { destruct (make_cli_character w args) as [alice|e];
        [ | destruct (is_AuthenticationFailed e)];
        cbn [trace fst] in Hin; apply in_app_or in Hin as [Hin | Hin];
        try (exfalso; revert Hin;
             by apply (existsb_false_not_In is_unlock_attempt));
        cbn in Hin; intuition congruence. }
    subst args. rewrite Hauth. cbn. exists tr. repeat split; assumption.
Qed.

(** With --json-ipc, a client password needed and the variable absent
    from the environment, [create_character] raises nothing of its own: it
    goes on to the keyring with [NO_PASSWORD] as client password. *)
Lemma create_character_json_ipc_envvar_absent
    (self : t) (emitter : Emitter) (config_file : option string)
    (load_seednodes : bool) (tr : list Event) (config : AliceConfiguration.t) :
  let args :=
    {| mc_character_config := config;
       mc_emitter := emitter;
       mc_unlock_keyring := true;
       mc_teacher_uri := teacher_uri self;
       mc_min_stake := min_stake self;
       mc_client_password := NO_PASSWORD;
       mc_load_preferred_teachers := load_seednodes;
       mc_start_learning_now := load_seednodes |} in
  AliceConfigOptions.create_config w (config_options self) emitter config_file
  = (tr, Return config) →
  AliceConfiguration.federated_only config = false →
  hw_wallet self = false →
  AliceConfiguration.dev_mode config = false →
  environ w !! NUCYPHER_ENVVAR_ALICE_ETH_PASSWORD w = None →
  create_character w self emitter config_file true load_seednodes
  = match make_cli_character w args with
    | Return alice => ((tr ++ [EvMakeCliCharacter args])%list, Return alice)
    | Raise e =>
        if is_AuthenticationFailed e
        then ((tr ++ [EvMakeCliCharacter args;
                      EvEmitterEcho (str_of e) "red" true])%list,
              Raise (Exit 1))
        else ((tr ++ [EvMakeCliCharacter args])%list, Raise e)
    end.
Proof.
  intros args Hcfg Hfed Hhw Hdev Henv.
  unfold create_character, environ_get_password.
  rewrite Hcfg. cmd_simpl. rewrite Hfed, Hhw, Hdev, Henv. cmd_simpl.
  fold args.
  destruct (make_cli_character w args) as [alice|e]; cbn;
    try destruct (is_AuthenticationFailed e); reflexivity.
Qed.

End CharacterOptions.

Section CommandProperties.
Context (w : World).
Import AliceCharacterOptions.

Lemma existsb_false_filter_nil (f : Event → bool) (tr : list Event) :
  existsb f tr = false → List.filter f tr = [].
Proof.
  induction tr as [|ev tr IH]; [reflexivity | ].
  cbn. destruct (f ev); [discriminate | exact IH].
Qed.

(** [run] stops where [create_character] raises: the call sits outside the
    [try] of the command. *)
Lemma run_create_character_raises
    (general_config : GeneralConfig) (character_options : t)
    (config_file : option string) (controller_port : Z) (dry_run : bool)
    (tr : list Event) (e : exn) :
  create_character w character_options (gc_emitter general_config) config_file
    (gc_json_ipc general_config) true = (tr, Raise e) →
  run w general_config character_options config_file controller_port dry_run
  = (EvEmitterClear :: EvEmitterBanner :: tr, Raise e).
Proof.
  intros Hcc. unfold run, _setup_emitter. cmd_simpl. rewrite Hcc. reflexivity.
Qed.

(** Once the character is there, what follows is controller work only. *)
Lemma run_create_character_returns
    (general_config : GeneralConfig) (character_options : t)
    (config_file : option string) (controller_port : Z) (dry_run : bool)
    (tr : list Event) (ALICE : Alice) :
  create_character w character_options (gc_emitter general_config) config_file
    (gc_json_ipc general_config) true = (tr, Return ALICE) →
  ∃ rest o,
    run w general_config character_options config_file controller_port dry_run
    = ((EvEmitterClear :: EvEmitterBanner :: tr) ++ rest, o)%list
    ∧ existsb is_unlock_attempt rest = false.
Proof.
  intros Hcc. unfold run, _setup_emitter. cmd_simpl. rewrite Hcc.
  destruct (gc_json_ipc general_config); cmd_simpl.
  - destruct (rpc_start w ALICE) as [[]|e]; cmd_simpl;
      [ | destruct (is_Exception e); [destruct (gc_debug general_config) | ] ];
      cmd_simpl; eexists _, _; (split; [reflexivity | reflexivity]).
  - destruct (web_start w ALICE _ controller_port dry_run) as [v|e]; cmd_simpl;
      [ | destruct (is_Exception e); [destruct (gc_debug general_config) | ] ];
      cmd_simpl; eexists _, _; (split; [reflexivity | reflexivity]).
Qed.

(** C4: when the unlock attempt of [run] is answered AuthenticationFailed,
    the message is echoed and the command ends in [Exit 1]; that attempt is
    the only one in the trace, and no controller is built or started, so
    the listener is never serving. *)
Theorem run_wrong_password_exits
    (general_config : GeneralConfig) (character_options : t)
    (config_file : option string) (controller_port : Z) (dry_run : bool)
    (a : make_cli_character_args) (message : string) :
  let r := run w general_config character_options config_file
             controller_port dry_run in
  In (EvMakeCliCharacter a) (trace r) →
  make_cli_character w a = Raise (AuthenticationFailed message) →
  outcome r = Raise (Exit 1)
  ∧ List.filter is_unlock_attempt (trace r) = [EvMakeCliCharacter a]
  ∧ existsb is_listener_event (trace r) = false
  ∧ ∃ tr, trace r
          = (tr ++ [EvMakeCliCharacter a; EvEmitterEcho message "red" true])%list.
Proof.
  intros r Hin Hauth.
  assert (Hcc : ∃ tr,
    create_character w character_options (gc_emitter general_config) config_file
      (gc_json_ipc general_config) true
    = ((tr ++ [EvMakeCliCharacter a; EvEmitterEcho message "red" true])%list,
       Raise (Exit 1))
    ∧ existsb is_unlock_attempt tr = false
    ∧ existsb is_listener_event tr = false).
  { apply create_character_wrong_password; [ | exact Hauth].
    destruct (create_character w character_options (gc_emitter general_config)
                config_file (gc_json_ipc general_config) true)
      as [tr [ALICE|e]] eqn:Hcc; cbn [trace fst].
    - destruct (run_create_character_returns general_config character_options
                  config_file controller_port dry_run tr ALICE Hcc)
        as (rest & o & Hrun & Hrest).
      subst r. rewrite Hrun in Hin. cbn [trace fst] in Hin.
      apply in_app_or in Hin as [Hin | Hin].
      + cbn in Hin. destruct Hin as [Hin | [Hin | Hin]];
          [discriminate | discriminate | exact Hin].
      + exfalso. revert Hin. by apply (existsb_false_not_In is_unlock_attempt).
    - subst r.
      rewrite (run_create_character_raises general_config character_options
                 config_file controller_port dry_run tr e Hcc) in Hin.
      cbn in Hin. destruct Hin as [Hin | [Hin | Hin]];
        [discriminate | discriminate | exact Hin]. }
  destruct Hcc as (tr & Hcc & Hu & Hl).
  subst r.
  rewrite (run_create_character_raises general_config character_options
             config_file controller_port dry_run _ _ Hcc).
  cbn [trace outcome fst snd]. split; [reflexivity | ]. split; [ | split].
  - cbn. rewrite List.filter_app, (existsb_false_filter_nil _ _ Hu). reflexivity.
  - cbn. rewrite existsb_app, Hl. reflexivity.
  - exists (EvEmitterClear :: EvEmitterBanner :: tr). reflexivity.
Qed.

(** With --json-ipc the value of --dry-run never reaches the RPC
    controller: [run] is the same computation for either value. *)
Lemma run_json_ipc_ignores_dry_run
    (emitter : Emitter) (debug : bool) (config_root : option string)
    (character_options : t) (config_file : option string) (controller_port : Z) :
  let general_config :=
    {| gc_emitter := emitter; gc_json_ipc := true;
       gc_debug := debug; gc_config_root := config_root |} in
  run w general_config character_options config_file controller_port true
  = run w general_config character_options config_file controller_port false.
Proof. reflexivity. Qed.

(** C8: [run] with --json-ipc and --dry-run, once Alice is made, builds
    the RPC controller and its transport and starts it, exactly as it does
    without --dry-run; the flag is not passed on. *)
Theorem run_json_ipc_dry_run_starts_listener
    (general_config : GeneralConfig) (character_options : t)
    (config_file : option string) (controller_port : Z)
    (tr : list Event) (ALICE : Alice) :
  gc_json_ipc general_config = true →
  create_character w character_options (gc_emitter general_config) config_file
    true true = (tr, Return ALICE) →
  let r := run w general_config character_options config_file
             controller_port true in
  r = run w general_config character_options config_file controller_port false
  ∧ ∃ rest,
      trace r
      = ((EvEmitterClear :: EvEmitterBanner :: tr)
         ++ EvMakeRpcController :: EvMakeControlTransport :: EvRpcStart :: rest)%list.
Proof.
  intros Hjson Hcc r. subst r. split.
  - unfold run. rewrite Hjson. reflexivity.
  - unfold run, _setup_emitter. rewrite Hjson. cmd_simpl. rewrite Hcc. cmd_simpl.
    destruct (rpc_start w ALICE) as [[]|e]; cmd_simpl;
      [ | destruct (is_Exception e); [destruct (gc_debug general_config) | ] ];
      cmd_simpl; eexists; reflexivity.
Qed.

(** The six fields every grant request starts from. *)
Lemma grant_request_has_no_payment_fields
    (bob_encrypting_key bob_verifying_key label : string)
    (m n : option Z) (expiration : option string) :
  let request :=
    dict_of [ ("bob_encrypting_key", PyStr bob_encrypting_key);
              ("bob_verifying_key", PyStr bob_verifying_key);
              ("label", PyStr label);
              ("m", py_of_int m);
              ("n", py_of_int n);
              ("expiration", py_of_str expiration) ] in
  request !! "value" = None ∧ request !! "rate" = None.
Proof.
  cbv zeta. unfold dict_of, dict_update. cbn [fold_left fst snd].
  split; by rewrite !lookup_insert_ne, lookup_empty.
Qed.

(** C1, as the code has it: for a federated Alice the request handed to
    the granting service holds the six fields bob_encrypting_key,
    bob_verifying_key, label, m, n and expiration and neither value nor
    rate, whatever was supplied for them; the service is called once with
    it, right after the character is made, and its outcome is the outcome
    of [grant]. *)
Theorem grant_federated_omits_payment_fields
    (general_config : GeneralConfig)
    (bob_encrypting_key bob_verifying_key label : string)
    (m n : option Z) (expiration : option string) (value rate : option Z)
    (character_options : t) (config_file : option string)
    (tr : list Event) (ALICE : Alice) :
  let request :=
    dict_of [ ("bob_encrypting_key", PyStr bob_encrypting_key);
              ("bob_verifying_key", PyStr bob_verifying_key);
              ("label", PyStr label);
              ("m", py_of_int m);
              ("n", py_of_int n);
              ("expiration", py_of_str expiration) ] in
  create_character w character_options (gc_emitter general_config) config_file
    (gc_json_ipc general_config) true = (tr, Return ALICE) →
  alice_federated_only ALICE = true →
  grant w general_config bob_encrypting_key bob_verifying_key label m n
    expiration value rate character_options config_file
  = ((EvEmitterClear :: EvEmitterBanner :: tr) ++ [EvControllerGrant request],
     controller_grant w ALICE request)%list
  ∧ request !! "value" = None
  ∧ request !! "rate" = None.
Proof.
  intros request Hcc Hfed. split.
  - unfold grant, _setup_emitter. cmd_simpl. rewrite Hcc, Hfed. reflexivity.
  - apply grant_request_has_no_payment_fields.
Qed.

End CommandProperties.

(** ** The commands on the sample surroundings *)

Example hex_stamp : hex [Byte.x02; Byte.xab] = "02ab".
Proof. reflexivity. Qed.

(** [run --dry-run] over HTTP: the flag reaches [controller.start]. *)
Example run_http_dry_run :
  run (Sample.world true) (Sample.general false)
    (Sample.character_options false None) None 8151 true
  = ([ EvEmitterClear; EvEmitterBanner;
       EvFromConfigurationFile
         {| AliceConfiguration.ff_emitter := Sample.emitter0;
            AliceConfiguration.ff_dev_mode := false;
            AliceConfiguration.ff_network_middleware := Sample.middleware0;
            AliceConfiguration.ff_domains := Some {[ "goerli" ]};
            AliceConfiguration.ff_provider_process := NO_BLOCKCHAIN_CONNECTION;
            AliceConfiguration.ff_provider_uri := None;
            AliceConfiguration.ff_filepath := None;
            AliceConfiguration.ff_rest_port := Some 9151;
            AliceConfiguration.ff_checksum_address := None;
            AliceConfiguration.ff_registry_filepath := None |};
       EvMakeCliCharacter
         {| mc_character_config :=
              {| AliceConfiguration.emitter := Sample.emitter0;
                 AliceConfiguration.dev_mode := false;
                 AliceConfiguration.network_middleware := Sample.middleware0;
                 AliceConfiguration.domains := Some {[ "goerli" ]};
                 AliceConfiguration.provider_process := NO_BLOCKCHAIN_CONNECTION;
                 AliceConfiguration.provider_uri := None;
                 AliceConfiguration.federated_only := true;
                 AliceConfiguration.checksum_address := None |};
            mc_emitter := Sample.emitter0;
            mc_unlock_keyring := true;
            mc_teacher_uri := None;
            mc_min_stake := 0;
            mc_client_password := PasswordNone;
            mc_load_preferred_teachers := true;
            mc_start_learning_now := true |};
       EvEmitterMessage "Alice Verifying Key 02ab" (Some "green") true;
       EvMakeWebController false;
       EvLogInfo "Starting HTTP Character Web Controller";
       EvEmitterMessage "Running HTTP Alice Controller at http://localhost:8151"
         None false;
       EvWebStart 8151 true ],
     Return PyNone).
Proof. vm_compute. reflexivity. Qed.

(** [run --json-ipc --dry-run]: the RPC controller is built and started,
    as without --dry-run. *)
Example run_json_ipc_dry_run_starts_rpc_controller :
  let r := run (Sample.world true) (Sample.general true)
             (Sample.character_options false None) None 8151 true in
  List.filter is_listener_event (trace r)
  = [EvMakeRpcController; EvMakeControlTransport; EvRpcStart]
  ∧ outcome r = Return PyNone.
Proof. split; reflexivity. Qed.

(** C2 at its failing input: a chain-backed configuration on disk, no
    hardware wallet, --json-ipc, and no password variable in the
    environment.  Nothing is raised: the keyring is opened with the
    sentinel [NO_PASSWORD] as client password and Alice is returned. *)
Theorem create_character_json_ipc_without_envvar :
  let w := Sample.world false in
  let cc := AliceCharacterOptions.create_character w
              (Sample.character_options false None) Sample.emitter0
              (Some "alice.json") true true in
  environ w !! NUCYPHER_ENVVAR_ALICE_ETH_PASSWORD w = None
  ∧ (∃ ff a,
        trace cc = [EvFromConfigurationFile ff; EvMakeCliCharacter a]
        ∧ AliceConfiguration.federated_only (mc_character_config a) = false
        ∧ AliceConfiguration.dev_mode (mc_character_config a) = false
        ∧ mc_client_password a = NO_PASSWORD)
  ∧ outcome cc = Return {| alice_federated_only := false;
                           alice_stamp := [Byte.x02; Byte.xab] |}
  ∧ ¬ failed cc.
Proof.
  cbv zeta. split; [reflexivity | split; [ | split; [reflexivity | ]]].
  - eexists _, _. split; [reflexivity | ]. repeat split; reflexivity.
  - intros [e He]. discriminate He.
Qed.

(** C1 does not hold as stated: a federated Alice, a grant with value and
    rate given; the command does not fail, and the granting service is
    called. *)
Lemma grant_federated_payment_not_rejected :
  let w := Sample.world true in
  let options := Sample.character_options false None in
  let r := grant w (Sample.general false) "02aa" "03bb" "label"
             (Some 2) (Some 3) None (Some 100) (Some 5) options None in
  (∃ ALICE,
      outcome (AliceCharacterOptions.create_character w options Sample.emitter0
                 None false true) = Return ALICE
      ∧ alice_federated_only ALICE = true)
  ∧ outcome r = Return (PyStr "receipt")
  ∧ existsb is_grant_call (trace r) = true
  ∧ ¬ (failed r ∧ existsb is_grant_call (trace r) = false).
Proof.
  cbv zeta. split; [eexists; split; reflexivity | ].
  split; [reflexivity | ]. split; [reflexivity | ].
  intros [[e He] _]. discriminate He.
Qed.

(** ** Instances of the conditional theorems *)

Lemma create_config_dev_federated_only_witness :
  let w := Sample.world false in
  AliceConfigOptions.create_config w
    (Sample.config_options true (Some false) None) Sample.emitter0 None
  = ([], Raise (BadOptionUsage "--federated-only" dev_federated_message))
  ∧ ∃ config,
      AliceConfigOptions.create_config w
        (Sample.config_options true None None) Sample.emitter0 None
      = ([], Return config).
Proof.
  cbv zeta. split.
  - apply (create_config_dev_federated_only (Sample.world false)
             (Sample.config_options true (Some false) None) Sample.emitter0 None
             eq_refl).
    reflexivity.
  - apply (create_config_dev_federated_only (Sample.world false)
             (Sample.config_options true None None) Sample.emitter0 None
             eq_refl).
    discriminate.
Defined.

Lemma dev_config_federated_temporary_domain_witness :
  let w := Sample.world false in
  let config :=
    {| AliceConfiguration.emitter := Sample.emitter0;
       AliceConfiguration.dev_mode := true;
       AliceConfiguration.network_middleware := Sample.middleware0;
       AliceConfiguration.domains := Some {[ ":TEMPORARY_DOMAIN:" ]};
       AliceConfiguration.provider_process := NO_BLOCKCHAIN_CONNECTION;
       AliceConfiguration.provider_uri := None;
       AliceConfiguration.federated_only := true;
       AliceConfiguration.checksum_address := None |} in
  (opts ← AliceConfigOptions.__init__ w true (Some "mainnet") None false None
            (Some 9151) (Some "0xdeadbeefdeadbeefdeadbeefdeadbeefdeadbeef")
            (Some "registry.json") Sample.middleware0;
   AliceConfigOptions.create_config w opts Sample.emitter0 None)
  = ([], Return config)
  ∧ AliceConfiguration.federated_only config = true
  ∧ AliceConfiguration.domains config = Some {[ TEMPORARY_DOMAIN w ]}.
Proof.
  cbv zeta. split; [reflexivity | ].
  pose proof (dev_config_federated_temporary_domain (Sample.world false)
                (Some "mainnet") None false None (Some 9151)
                (Some "0xdeadbeefdeadbeefdeadbeefdeadbeefdeadbeef")
                (Some "registry.json") Sample.middleware0 Sample.emitter0 None
                [] _ eq_refl) as (Hfed & Hdom & _).
  split; [exact Hfed | exact Hdom].
Defined.

Lemma create_config_missing_file_recoverable_witness :
  AliceConfigOptions.create_config Sample.world_without_file
    (Sample.config_options false None None) Sample.emitter0 (Some "alice.json")
  = ([ EvFromConfigurationFile
         {| AliceConfiguration.ff_emitter := Sample.emitter0;
            AliceConfiguration.ff_dev_mode := false;
            AliceConfiguration.ff_network_middleware := Sample.middleware0;
            AliceConfiguration.ff_domains := Some {[ "goerli" ]};
            AliceConfiguration.ff_provider_process := NO_BLOCKCHAIN_CONNECTION;
            AliceConfiguration.ff_provider_uri := None;
            AliceConfiguration.ff_filepath := Some "alice.json";
            AliceConfiguration.ff_rest_port := Some 9151;
            AliceConfiguration.ff_checksum_address := None;
            AliceConfiguration.ff_registry_filepath := None |};
       EvHandleMissingConfigurationFile (Some "alice.json") ],
     interactive_creation Sample.world_without_file (Some "alice.json")).
Proof.
  apply (create_config_missing_file_recoverable Sample.world_without_file
           (Sample.config_options false None None) Sample.emitter0
           (Some "alice.json") "alice.json"); reflexivity.
Defined.

Lemma generate_config_requires_provider_witness :
  AliceConfigOptions.generate_config (Sample.world false)
    (Sample.config_options false (Some false) (Some "")) Sample.emitter0
    None false false (Some 2) (Some 3) None None
  = ([], Raise (BadOptionUsage "--provider" provider_message))
  ∧ error_kind (BadOptionUsage "--provider" provider_message)
    = Some MissingProviderURI.
Proof.
  apply (generate_config_requires_provider (Sample.world false)
           (Sample.config_options false (Some false) (Some "")));
    reflexivity.
Defined.

Lemma init_dev_never_persists_witness :
  init (Sample.world true) (Sample.general false)
    (Sample.config_options true None (Some "ipc:///tmp/geth.ipc"))
    (Some "/tmp/alice") false false None None None None
  = ([EvEmitterClear; EvEmitterBanner],
     Raise (BadArgumentUsage persistent_dev_message)).
Proof.
  apply (init_dev_never_persists (Sample.world true) (Sample.general false)
           (Sample.config_options true None (Some "ipc:///tmp/geth.ipc"))
           (Some "/tmp/alice") false false None None None None eq_refl).
Defined.

Lemma run_wrong_password_exits_witness :
  let w := Sample.world_wrong_password in
  let a :=
    {| mc_character_config :=
         {| AliceConfiguration.emitter := Sample.emitter0;
            AliceConfiguration.dev_mode := false;
            AliceConfiguration.network_middleware := Sample.middleware0;
            AliceConfiguration.domains := Some {[ "goerli" ]};
            AliceConfiguration.provider_process := NO_BLOCKCHAIN_CONNECTION;
            AliceConfiguration.provider_uri := Some "ipc:///tmp/geth.ipc";
            AliceConfiguration.federated_only := false;
            AliceConfiguration.checksum_address :=
              Some "0xdeadbeefdeadbeefdeadbeefdeadbeefdeadbeef" |};
       mc_emitter := Sample.emitter0;
       mc_unlock_keyring := true;
       mc_teacher_uri := None;
       mc_min_stake := 0;
       mc_client_password := Password "account password";
       mc_load_preferred_teachers := true;
       mc_start_learning_now := true |} in
  let r := run w (Sample.general false) (Sample.character_options false None)
             (Some "alice.json") 8151 false in
  make_cli_character w a = Raise (AuthenticationFailed "Incorrect password")
  ∧ outcome r = Raise (Exit 1)
  ∧ List.filter is_unlock_attempt (trace r) = [EvMakeCliCharacter a]
  ∧ existsb is_listener_event (trace r) = false.
Proof.
  intros w a r. split; [reflexivity | ].
  destruct (run_wrong_password_exits w (Sample.general false)
              (Sample.character_options false None) (Some "alice.json") 8151 false
              a "Incorrect password") as (Hexit & Honce & Hquiet & _).
  - do 4 right. left. reflexivity.
  - reflexivity.
  - repeat split; assumption.
Defined.

Lemma grant_federated_omits_payment_fields_witness :
  let w := Sample.world true in
  let options := Sample.character_options false None in
  let cc := AliceCharacterOptions.create_character w options Sample.emitter0
              None false true in
  let ALICE := {| alice_federated_only := true;
                  alice_stamp := [Byte.x02; Byte.xab] |} in
  let request :=
    dict_of [ ("bob_encrypting_key", PyStr "02aa");
              ("bob_verifying_key", PyStr "03bb");
              ("label", PyStr "label");
              ("m", PyInt 2);
              ("n", PyInt 3);
              ("expiration", PyNone) ] in
  cc = (trace cc, Return ALICE)
  ∧ grant w (Sample.general false) "02aa" "03bb" "label" (Some 2) (Some 3) None
      (Some 100) (Some 5) options None
    = ((EvEmitterClear :: EvEmitterBanner :: trace cc)
       ++ [EvControllerGrant request], Return (PyStr "receipt"))%list
  ∧ request !! "value" = None
  ∧ request !! "rate" = None.
Proof.
  intros w options cc ALICE request. split; [reflexivity | ].
  apply (grant_federated_omits_payment_fields w (Sample.general false)
           "02aa" "03bb" "label" (Some 2) (Some 3) None (Some 100) (Some 5)
           options None (trace cc) ALICE); reflexivity.
Defined.

Lemma run_json_ipc_dry_run_starts_listener_witness :
  let w := Sample.world true in
  let options := Sample.character_options false None in
  let cc := AliceCharacterOptions.create_character w options Sample.emitter0
              None true true in
  let r := run w (Sample.general true) options None 8151 true in
  cc = (trace cc, Return {| alice_federated_only := true;
                            alice_stamp := [Byte.x02; Byte.xab] |})
  ∧ r = run w (Sample.general true) options None 8151 false
  ∧ ∃ rest,
      trace r
      = ((EvEmitterClear :: EvEmitterBanner :: trace cc)
         ++ EvMakeRpcController :: EvMakeControlTransport :: EvRpcStart :: rest)%list.
Proof.
  intros w options cc r. split; [reflexivity | ].
  apply (run_json_ipc_dry_run_starts_listener w (Sample.general true) options
           None 8151 (trace cc) _ eq_refl eq_refl).
Defined.

(** ** Further properties of the option classes *)

Ltac in_cases H :=
  cbn in H;
  repeat match type of H with
         | _ ∨ _ => destruct H as [H | H]
         | False => contradiction
         end;
  try discriminate H.

(** Splits [generate_config] into every way it can go. *)
Ltac split_generate_config w self :=
  unfold AliceConfigOptions.generate_config;
  destruct (AliceConfigOptions.dev self) eqn:Hdev;
  destruct (truthy_str (AliceConfigOptions.provider_uri self)) eqn:Huri;
  destruct (truthy_flag (AliceConfigOptions.federated_only self)) eqn:Hfed;
  destruct (truthy_str (AliceConfigOptions.pay_with self)) eqn:Hpay;
  cmd_unfold; cbn [negb andb];
  try destruct (select_client_account w _) as [account|] eqn:Hsel;
  destruct (get_nucypher_password w true) as [password|] eqn:Hpw;
  cbn [app fst snd].

Section MoreConfigOptions.
Context (w : World).
Import AliceConfigOptions.

Lemma truthy_str_Some (s : string) : truthy_str (Some s) = true ↔ s ≠ "".
Proof.
  cbn. rewrite negb_true_iff. apply String.eqb_neq.
Qed.

(** X1: with --geth (and --federated-only not True) the options take their
    provider URI from the staged managed client, which is also stored as
    eth_node; a --provider given on the command line is discarded. *)
Theorem init_geth_provider_from_managed_client
    (dev : bool) (network provider_uri : option string) (fed : option bool)
    (discovery_port : option Z) (pay_with registry_filepath : option string)
    (mw : Middleware) (uri : string) :
  truthy_flag fed = false →
  get_provider_process w = Return uri →
  ∃ opts,
    __init__ w dev network provider_uri true fed discovery_port pay_with
      registry_filepath mw = ([EvGetProviderProcess], Return opts)
    ∧ AliceConfigOptions.provider_uri opts = Some uri
    ∧ eth_node opts = ProviderProcess uri
    ∧ ∀ provider_uri' : option string,
        __init__ w dev network provider_uri' true fed discovery_port pay_with
          registry_filepath mw = ([EvGetProviderProcess], Return opts).
Proof.
  intros Hfed Hstage. unfold __init__. rewrite Hfed, Hstage. cmd_simpl.
  eexists. split; [reflexivity | ]. repeat split.
Qed.

(** X2: without --geth, building the options calls nothing and cannot
    fail; the provider URI is kept as given, there is no managed client,
    and domains is the singleton of the network, or unset when the network
    is missing or the empty string. *)
Theorem init_without_geth
    (dev : bool) (network provider_uri : option string) (fed : option bool)
    (discovery_port : option Z) (pay_with registry_filepath : option string)
    (mw : Middleware) :
  ∃ opts,
    __init__ w dev network provider_uri false fed discovery_port pay_with
      registry_filepath mw = ([], Return opts)
    ∧ AliceConfigOptions.provider_uri opts = provider_uri
    ∧ eth_node opts = NO_BLOCKCHAIN_CONNECTION
    ∧ (domains opts = None ↔ network = None ∨ network = Some "")
    ∧ ∀ net, network = Some net → net ≠ "" → domains opts = Some {[ net ]}.
Proof.
  unfold __init__. rewrite andb_false_r. cmd_simpl.
  eexists. split; [reflexivity | ]. cbn. repeat split.
  - destruct network as [net|]; [ | by left]. cbn.
    destruct (String.eqb_spec net ""); cbn; [subst; by right | discriminate].
  - intros [-> | ->]; reflexivity.
  - intros net -> Hnet. cbn.
    destruct (String.eqb_spec net ""); [contradiction | reflexivity].
Qed.

(** X3: outside dev mode, an error of loading the configuration file that
    is not FileNotFoundError leaves [create_config] as it is, after the
    single load attempt; the missing-file handler is not signalled. *)
Theorem create_config_other_load_errors_propagate
    (self : t) (emitter : Emitter) (config_file : option string) (e : exn) :
  let args :=
    {| AliceConfiguration.ff_emitter := emitter;
       AliceConfiguration.ff_dev_mode := false;
       AliceConfiguration.ff_network_middleware := middleware self;
       AliceConfiguration.ff_domains := domains self;
       AliceConfiguration.ff_provider_process := eth_node self;
       AliceConfiguration.ff_provider_uri := AliceConfigOptions.provider_uri self;
       AliceConfiguration.ff_filepath := config_file;
       AliceConfiguration.ff_rest_port := discovery_port self;
       AliceConfiguration.ff_checksum_address := pay_with self;
       AliceConfiguration.ff_registry_filepath := registry_filepath self |} in
  AliceConfigOptions.dev self = false →
  from_configuration_file w args = Raise e →
  is_FileNotFoundError e = false →
  create_config w self emitter config_file
  = ([EvFromConfigurationFile args], Raise e).
Proof.
  intros args Hdev Hload Hother. unfold create_config. rewrite Hdev.
  fold args. cmd_unfold. rewrite Hload, Hother. reflexivity.
Qed.

(** X4: [generate_config] asks for a client account only when no pay_with
    was given and --federated-only is not True, and then always against
    the provider URI of the options, which is not empty, and without
    balances. *)
Theorem generate_config_account_selection
    (self : t) (emitter : Emitter) (config_root : option string)
    (poa light : bool) (m n : option Z) (duration_periods : option float)
    (rate : option Z) (provider : option string) (show_balances : bool) :
  In (EvSelectClientAccount provider show_balances)
    (trace (generate_config w self emitter config_root poa light m n
              duration_periods rate)) →
  truthy_str (pay_with self) = false
  ∧ truthy_flag (federated_only self) = false
  ∧ provider = AliceConfigOptions.provider_uri self
  ∧ truthy_str provider = true
  ∧ show_balances = false.
Proof.
  split_generate_config w self; intros Hin; in_cases Hin;
    injection Hin as <- <-; repeat split; assumption.
Qed.

(** X5: a configuration is written by [generate_config] only after the
    keyring password prompt, asked with confirmation, has returned; the
    password it gave is the one written with, the write is the last call,
    there is no second one, and its outcome is the outcome of
    [generate_config]. *)
Theorem generate_config_writes_last
    (self : t) (emitter : Emitter) (config_root : option string)
    (poa light : bool) (m n : option Z) (duration_periods : option float)
    (rate : option Z) (a : AliceConfiguration.generate_args) :
  let g := generate_config w self emitter config_root poa light m n
             duration_periods rate in
  In (EvGenerate a) (trace g) →
  get_nucypher_password w true = Return (AliceConfiguration.g_password a)
  ∧ outcome g = generate w a
  ∧ ∃ before,
      trace g = (before ++ [EvGetNucypherPassword true; EvGenerate a])%list
      ∧ existsb is_generate before = false.
Proof.
  cbv zeta. split_generate_config w self; intros Hin; in_cases Hin;
    injection Hin as <-; (split; [reflexivity | split; [reflexivity | ]]).
  all: first [ by exists [] | by eexists [_] ].
Qed.

(** X6: what [generate_config] writes for a configuration that is not
    federated always has a provider URI that is not empty and a checksum
    address: the pay_with of the options when one was given, else the
    account that was selected. *)
Theorem generate_config_chain_backed_is_complete
    (self : t) (emitter : Emitter) (config_root : option string)
    (poa light : bool) (m n : option Z) (duration_periods : option float)
    (rate : option Z) (a : AliceConfiguration.generate_args) :
  In (EvGenerate a)
    (trace (generate_config w self emitter config_root poa light m n
              duration_periods rate)) →
  truthy_flag (AliceConfiguration.g_federated_only a) = false →
  truthy_str (AliceConfiguration.g_provider_uri a) = true
  ∧ ∃ account,
      AliceConfiguration.g_checksum_address a = Some account
      ∧ (truthy_str (pay_with self) = true → pay_with self = Some account)
      ∧ (truthy_str (pay_with self) = false →
           select_client_account w (AliceConfigOptions.provider_uri self)
           = Return account).
Proof.
  split_generate_config w self; intros Hin; in_cases Hin;
    injection Hin as <-; cbn; intros Hchain; try congruence.
  all: split; [assumption | ].
  all: match goal with
       | Hyes : truthy_str (pay_with _) = true |- _ =>
           destruct (pay_with self) as [address|]; [exists address | discriminate]
       | _ => exists account
       end; repeat split; congruence.
Qed.

(** X7: with --federated-only set, [generate_config] needs no provider
    and selects no account: once the password prompt has returned, the
    configuration is written with the pay_with of the options as it is. *)
Theorem generate_config_federated
    (self : t) (emitter : Emitter) (config_root : option string)
    (poa light : bool) (m n : option Z) (duration_periods : option float)
    (rate : option Z) (password : string) :
  AliceConfigOptions.dev self = false →
  federated_only self = Some true →
  get_nucypher_password w true = Return password →
  ∃ a,
    generate_config w self emitter config_root poa light m n duration_periods rate
    = ([EvGetNucypherPassword true; EvGenerate a], generate w a)
    ∧ AliceConfiguration.g_checksum_address a = pay_with self
    ∧ AliceConfiguration.g_password a = password
    ∧ AliceConfiguration.g_federated_only a = Some true
    ∧ AliceConfiguration.g_config_root a = config_root.
Proof.
  intros Hdev Hfed Hpw. unfold generate_config.
  rewrite Hdev, Hfed. cbn [truthy_flag negb andb]. rewrite !andb_false_r.
  cmd_unfold. rewrite Hpw. cbn. eexists. split; [reflexivity | ].
  repeat split.
Qed.

(** X8: options built with --geth (not dev, --federated-only not True)
    pass the provider check of [generate_config] whenever the URI of the
    managed client is not empty, whatever --provider was: the next call is
    the account selection against that URI, or the password prompt when
    pay_with was given. *)
Theorem init_geth_then_generate_config
    (network provider_uri : option string) (fed : option bool)
    (discovery_port : option Z) (pay_with registry_filepath : option string)
    (mw : Middleware) (emitter : Emitter) (config_root : option string)
    (poa light : bool) (m n : option Z) (duration_periods : option float)
    (rate : option Z) (uri : string) :
  truthy_flag fed = false →
  get_provider_process w = Return uri →
  uri ≠ "" →
  ∃ rest,
    trace (opts ← __init__ w false network provider_uri true fed discovery_port
                    pay_with registry_filepath mw;
           generate_config w opts emitter config_root poa light m n
             duration_periods rate)
    = EvGetProviderProcess
      :: (if truthy_str pay_with
          then EvGetNucypherPassword true
          else EvSelectClientAccount (Some uri) false)
      :: rest.
Proof.
  intros Hfed Hstage Huri. apply truthy_str_Some in Huri.
  unfold __init__, generate_config. rewrite Hfed, Hstage. cmd_simpl.
  rewrite Hfed. cbn in Huri. rewrite Huri. cbn.
  destruct (truthy_str pay_with); cbn.
  - destruct (get_nucypher_password w true); cbn; eexists; reflexivity.
  - destruct (select_client_account w (Some uri)); cbn;
      [destruct (get_nucypher_password w true); cbn | ]; eexists; reflexivity.
Qed.

End MoreConfigOptions.

(** ** Further properties of [create_character] *)

Section MoreCharacterOptions.
Context (w : World).
Import AliceCharacterOptions.

(** [create_config] makes no call but the load and the missing-file signal. *)
Lemma create_config_only_config_calls
    (f : Event → bool) (self : AliceConfigOptions.t) (emitter : Emitter)
    (config_file : option string) :
  (∀ a, f (EvFromConfigurationFile a) = false) →
  (∀ path, f (EvHandleMissingConfigurationFile path) = false) →
  existsb f (trace (AliceConfigOptions.create_config w self emitter config_file))
  = false.
Proof.
  intros Hload Hsignal. unfold AliceConfigOptions.create_config.
  destruct (AliceConfigOptions.dev self).
  - destruct (is_False (AliceConfigOptions.federated_only self)); reflexivity.
  - cmd_unfold.
    destruct (from_configuration_file w _) as [config|e]; cbn;
      [by rewrite Hload | ].
    destruct (is_FileNotFoundError e); cbn; by rewrite ?Hload, ?Hsignal.
Qed.

(** [create_character], one path at a time. *)
Lemma create_character_unfold
    (self : t) (emitter : Emitter) (config_file : option string)
    (json_ipc load_seednodes : bool) :
  create_character w self emitter config_file json_ipc load_seednodes
  = match AliceConfigOptions.create_config w (config_options self) emitter
            config_file with
    | (tr, Raise e) => (tr, Raise e)
    | (tr, Return config) =>
        if eth_password_is_needed self config then
          if json_ipc then
            unlock_attempt w tr
              (unlock_args self emitter config (environ_get_password w)
                 load_seednodes)
          else
            let address := AliceConfiguration.checksum_address config in
            match get_client_password w address with
            | Return p =>
                unlock_attempt w (tr ++ [EvGetClientPassword address])
                  (unlock_args self emitter config (Password p) load_seednodes)
            | Raise e => ((tr ++ [EvGetClientPassword address])%list, Raise e)
            end
        else
          unlock_attempt w tr
            (unlock_args self emitter config PasswordNone load_seednodes)
    end.
Proof.
  unfold create_character, eth_password_is_needed, unlock_attempt, unlock_args.
  destruct (AliceConfigOptions.create_config w (config_options self) emitter
              config_file) as [tr [config|e]]; [ | reflexivity].
  cmd_simpl.
  destruct (negb (AliceConfiguration.federated_only config) && negb (hw_wallet self)
            && negb (AliceConfiguration.dev_mode config));
    [ destruct json_ipc;
      [ destruct (is_NO_PASSWORD (environ_get_password w))
      | destruct (get_client_password w _) as [p|e] ] | ];
    cmd_simpl;
    try (destruct (make_cli_character w _) as [alice|e']; cbn;
         try destruct (is_AuthenticationFailed e'); cbn;
         rewrite <- ?app_assoc; reflexivity).
  reflexivity.
Qed.

Lemma eth_password_is_needed_true (self : t) (config : AliceConfiguration.t) :
  eth_password_is_needed self config = true →
  AliceConfiguration.federated_only config = false
  ∧ hw_wallet self = false
  ∧ AliceConfiguration.dev_mode config = false.
Proof.
  unfold eth_password_is_needed.
  rewrite !andb_true_iff, !negb_true_iff. tauto.
Qed.

(** Goes through every path of [create_character]; [f] is a kind of call
    [create_config] does not make. *)
Ltac split_create_character f self emitter config_file :=
  rewrite create_character_unfold;
  let Hquiet := fresh "Hquiet" in
  pose proof (create_config_only_config_calls f (config_options self) emitter
                config_file (λ _, eq_refl) (λ _, eq_refl)) as Hquiet;
  destruct (AliceConfigOptions.create_config w (config_options self) emitter
              config_file) as [tr [config|e0]] eqn:Hcfg;
  cbn [trace fst] in Hquiet;
  [ destruct (eth_password_is_needed self config) eqn:Hneed;
    [ match goal with
      | |- context [if ?b then _ else _] =>
          destruct b;
          [ | cbv zeta;
              destruct (get_client_password w
                          (AliceConfiguration.checksum_address config))
                as [p|e1] eqn:Hprompt ]
      end | ] | ];
  try match goal with
      | |- context [unlock_attempt _ _ ?args] =>
          unfold unlock_attempt;
          destruct (make_cli_character w args) as [alice|e2] eqn:Hmake;
          [ | destruct (is_AuthenticationFailed e2) eqn:Hauth ]
      end;
  cbn [trace outcome fst snd].

(** Takes apart [In ev (tr ++ rest)] where [tr] holds no call like [ev]. *)
Ltac in_trace H Hquiet :=
  rewrite <- ?app_assoc in H;
  first
    [ apply in_app_or in H as [H | H];
      [ exfalso; revert H;
        by apply (existsb_false_not_In _ _ _ Hquiet)
      | in_cases H ]
    | exfalso; revert H;
      by apply (existsb_false_not_In _ _ _ Hquiet) ].

(** X9: [create_character] prompts for the client password only without
    --json-ipc, without a hardware wallet, and for a loaded configuration
    that is neither federated nor in dev mode; the prompt is for the
    checksum address of that configuration. *)
Theorem create_character_prompts_only_when_needed
    (self : t) (emitter : Emitter) (config_file : option string)
    (json_ipc load_seednodes : bool) (address : option string) :
  In (EvGetClientPassword address)
    (trace (create_character w self emitter config_file json_ipc load_seednodes)) →
  json_ipc = false
  ∧ hw_wallet self = false
  ∧ ∃ tr config,
      AliceConfigOptions.create_config w (config_options self) emitter config_file
      = (tr, Return config)
      ∧ AliceConfiguration.federated_only config = false
      ∧ AliceConfiguration.dev_mode config = false
      ∧ address = AliceConfiguration.checksum_address config.
Proof.
  split_create_character is_client_password_prompt self emitter config_file;
    intros Hin; in_trace Hin Hquiet.
  all: injection Hin as <-.
  all: destruct (eth_password_is_needed_true _ _ Hneed) as (Hfed & Hhw & Hdev).
  all: repeat split; try assumption; exists tr, config; repeat split; assumption.
Qed.

(** X10: the client password [create_character] takes to the keyring is
    None when none is needed (federated configuration, hardware wallet or
    dev mode); else, with --json-ipc, what the environment variable holds
    ([NO_PASSWORD] when it is absent), and without --json-ipc what the
    prompt for the configured address returned.  The keyring is unlocked
    unless the configuration is in dev mode, and load_seednodes sets both
    teacher flags. *)
Theorem create_character_client_password
    (self : t) (emitter : Emitter) (config_file : option string)
    (json_ipc load_seednodes : bool) (a : make_cli_character_args) :
  In (EvMakeCliCharacter a)
    (trace (create_character w self emitter config_file json_ipc load_seednodes)) →
  let config := mc_character_config a in
  (if eth_password_is_needed self config then
     if json_ipc then
       mc_client_password a
       = match environ w !! NUCYPHER_ENVVAR_ALICE_ETH_PASSWORD w with
         | Some s => Password s
         | None => NO_PASSWORD
         end
     else
       ∃ p, get_client_password w (AliceConfiguration.checksum_address config)
            = Return p
            ∧ mc_client_password a = Password p
   else mc_client_password a = PasswordNone)
  ∧ mc_unlock_keyring a = negb (AliceConfiguration.dev_mode config)
  ∧ mc_load_preferred_teachers a = load_seednodes
  ∧ mc_start_learning_now a = load_seednodes.
Proof.
  split_create_character is_unlock_attempt self emitter config_file;
    intros Hin; in_trace Hin Hquiet.
  all: injection Hin as <-; cbn; rewrite Hneed.
  all: repeat split; try reflexivity.
  all: by exists p.
Qed.

(** X11: in dev mode (--federated-only not explicitly False)
    [create_character] loads nothing and prompts for nothing: its first call
    is the one to [make_cli_character], for the federated dev configuration
    on the temporary domain, without unlocking the keyring and without a
    client password; what that call returns is returned. *)
Theorem create_character_dev
    (self : t) (emitter : Emitter) (config_file : option string)
    (json_ipc load_seednodes : bool) :
  AliceConfigOptions.dev (config_options self) = true →
  AliceConfigOptions.federated_only (config_options self) ≠ Some false →
  ∃ a,
    hd_error (trace (create_character w self emitter config_file json_ipc
                       load_seednodes)) = Some (EvMakeCliCharacter a)
    ∧ mc_unlock_keyring a = false
    ∧ mc_client_password a = PasswordNone
    ∧ AliceConfiguration.dev_mode (mc_character_config a) = true
    ∧ AliceConfiguration.federated_only (mc_character_config a) = true
    ∧ AliceConfiguration.domains (mc_character_config a)
      = Some {[ TEMPORARY_DOMAIN w ]}
    ∧ ∀ alice, make_cli_character w a = Return alice →
        create_character w self emitter config_file json_ipc load_seednodes
        = ([EvMakeCliCharacter a], Return alice).
Proof.
  intros Hdev Hfed. rewrite create_character_unfold.
  unfold AliceConfigOptions.create_config. rewrite Hdev.
  assert (Hnot : is_False (AliceConfigOptions.federated_only (config_options self))
                 = false).
  { destruct (AliceConfigOptions.federated_only (config_options self))
      as [[|]|]; [reflexivity | congruence | reflexivity]. }
  rewrite Hnot. cmd_simpl.
  unfold eth_password_is_needed. cbn. eexists. split.
  - unfold unlock_attempt.
    destruct (make_cli_character w _) as [alice|e];
      [ | destruct (is_AuthenticationFailed e)]; reflexivity.
  - repeat split. intros alice Hmake. unfold unlock_attempt, unlock_args in *.
    cbn in *. rewrite Hmake. reflexivity.
Qed.

(** X12: an exception of [make_cli_character] that is not
    AuthenticationFailed leaves [create_character] as it is: the unlock
    attempt is the last call, nothing is echoed, and no exit status is
    set. *)
Theorem create_character_other_errors_propagate
    (self : t) (emitter : Emitter) (config_file : option string)
    (json_ipc load_seednodes : bool) (a : make_cli_character_args) (e : exn) :
  let cc := create_character w self emitter config_file json_ipc load_seednodes in
  In (EvMakeCliCharacter a) (trace cc) →
  make_cli_character w a = Raise e →
  is_AuthenticationFailed e = false →
  outcome cc = Raise e
  ∧ ∃ before, trace cc = (before ++ [EvMakeCliCharacter a])%list
              ∧ existsb is_unlock_attempt before = false.
Proof.
  cbv zeta.
  split_create_character is_unlock_attempt self emitter config_file;
    intros Hin Hraise Hother; in_trace Hin Hquiet.
  all: injection Hin as <-; rewrite Hraise in Hmake; try discriminate Hmake.
  all: injection Hmake as <-; try congruence.
  all: split; [reflexivity | ].
  all: eexists; split; [reflexivity | ].
  all: rewrite ?existsb_app, Hquiet; reflexivity.
Qed.

(** X13: when the client password prompt raises, [create_character] raises
    the same and the keyring is not touched. *)
Theorem create_character_prompt_fails
    (self : t) (emitter : Emitter) (config_file : option string)
    (json_ipc load_seednodes : bool) (address : option string) (e : exn) :
  let cc := create_character w self emitter config_file json_ipc load_seednodes in
  In (EvGetClientPassword address) (trace cc) →
  get_client_password w address = Raise e →
  outcome cc = Raise e
  ∧ existsb is_unlock_attempt (trace cc) = false.
Proof.
  cbv zeta. intros Hin.
  pose proof (create_config_only_config_calls is_unlock_attempt
                (config_options self) emitter config_file
                (λ _, eq_refl) (λ _, eq_refl)) as Hno.
  revert Hin.
  split_create_character is_client_password_prompt self emitter config_file;
    cbn [trace fst] in Hno;
    intros Hin Hraise; in_trace Hin Hquiet.
  all: injection Hin as <-; rewrite Hraise in Hprompt; try discriminate Hprompt.
  injection Hprompt as <-. split; [reflexivity | ].
  rewrite existsb_app, Hno. reflexivity.
Qed.

(** What [create_character] has done when it returns. *)
Lemma create_character_returned
    (self : t) (emitter : Emitter) (config_file : option string)
    (json_ipc load_seednodes : bool) (calls : list Event) (ALICE : Alice) :
  create_character w self emitter config_file json_ipc load_seednodes
  = (calls, Return ALICE) →
  ∃ before a,
    calls = (before ++ [EvMakeCliCharacter a])%list
    ∧ make_cli_character w a = Return ALICE
    ∧ existsb is_unlock_attempt before = false
    ∧ existsb is_listener_event before = false
    ∧ existsb is_grant_call before = false.
Proof.
  pose proof (create_config_only_config_calls is_listener_event
                (config_options self) emitter config_file
                (λ _, eq_refl) (λ _, eq_refl)) as Hl.
  pose proof (create_config_only_config_calls is_grant_call
                (config_options self) emitter config_file
                (λ _, eq_refl) (λ _, eq_refl)) as Hg.
  split_create_character is_unlock_attempt self emitter config_file;
    cbn [trace fst] in Hl, Hg; intros H; try discriminate H.
  all: injection H as <- <-; eexists _, _; split; [reflexivity | ].
  all: split; [assumption | ].
  all: rewrite ?existsb_app, Hquiet, Hl, Hg; repeat split; reflexivity.
Qed.

(** X14: [create_character] returns an Alice only as the answer of its
    [make_cli_character] call, which is then its last call and the only
    unlock attempt. *)
Theorem create_character_returns_from_keyring
    (self : t) (emitter : Emitter) (config_file : option string)
    (json_ipc load_seednodes : bool) (calls : list Event) (ALICE : Alice) :
  create_character w self emitter config_file json_ipc load_seednodes
  = (calls, Return ALICE) →
  ∃ before a,
    calls = (before ++ [EvMakeCliCharacter a])%list
    ∧ make_cli_character w a = Return ALICE
    ∧ List.filter is_unlock_attempt calls = [EvMakeCliCharacter a].
Proof.
  intros Hcc.
  destruct (create_character_returned _ _ _ _ _ _ _ Hcc)
    as (before & a & -> & Hmake & Hu & _).
  exists before, a. split; [reflexivity | split; [exact Hmake | ]].
  rewrite List.filter_app, (existsb_false_filter_nil _ _ Hu). reflexivity.
Qed.

(** Calls that [create_character] never makes. *)
Lemma create_character_never_calls
    (f : Event → bool) (self : t) (emitter : Emitter)
    (config_file : option string) (json_ipc load_seednodes : bool) :
  (∀ a, f (EvFromConfigurationFile a) = false) →
  (∀ path, f (EvHandleMissingConfigurationFile path) = false) →
  (∀ address, f (EvGetClientPassword address) = false) →
  (∀ a, f (EvMakeCliCharacter a) = false) →
  (∀ message color bold, f (EvEmitterEcho message color bold) = false) →
  existsb f (trace (create_character w self emitter config_file json_ipc
                      load_seednodes)) = false.
Proof.
  intros Hload Hsignal Hprompt' Hmake' Hecho.
  rewrite create_character_unfold.
  pose proof (create_config_only_config_calls f (config_options self) emitter
                config_file Hload Hsignal) as Hquiet.
  destruct (AliceConfigOptions.create_config w (config_options self) emitter
              config_file) as [tr [config|e0]]; cbn [trace fst] in Hquiet;
    [ | exact Hquiet].
  unfold unlock_attempt.
  destruct (eth_password_is_needed self config);
    [ destruct json_ipc; [ | cbv zeta; destruct (get_client_password w _)] | ];
    try (destruct (make_cli_character w _) as [alice|e2];
         [ | destruct (is_AuthenticationFailed e2)]);
    cbn [trace fst]; rewrite ?existsb_app, Hquiet; cbn;
    by rewrite ?Hprompt', ?Hmake', ?Hecho.
Qed.

(** How every unlock attempt of [create_character] sets the teacher flags. *)
Lemma create_character_attempt_flags
    (self : t) (emitter : Emitter) (config_file : option string)
    (json_ipc load_seednodes : bool) (a : make_cli_character_args) :
  In (EvMakeCliCharacter a)
    (trace (create_character w self emitter config_file json_ipc load_seednodes)) →
  mc_load_preferred_teachers a = load_seednodes
  ∧ mc_start_learning_now a = load_seednodes.
Proof.
  split_create_character is_unlock_attempt self emitter config_file;
    intros Hin; in_trace Hin Hquiet.
  all: injection Hin as <-; split; reflexivity.
Qed.

End MoreCharacterOptions.

(** ** Further properties of [run], [grant] and [init] *)

Section MoreCommands.
Context (w : World).
Import AliceCharacterOptions.

(** [run], one path at a time. *)
Lemma run_unfold
    (general_config : GeneralConfig) (character_options : t)
    (config_file : option string) (controller_port : Z) (dry_run : bool) :
  run w general_config character_options config_file controller_port dry_run
  = match create_character w character_options (gc_emitter general_config)
            config_file (gc_json_ipc general_config) true with
    | (tr, Raise e) => (EvEmitterClear :: EvEmitterBanner :: tr, Raise e)
    | (tr, Return ALICE) =>
        let calls :=
          (EvEmitterClear :: EvEmitterBanner :: tr
           ++ start_calls general_config ALICE controller_port dry_run)%list in
        match start_outcome w general_config ALICE controller_port dry_run with
        | Return v => (calls, Return v)
        | Raise e =>
            if is_Exception e
            then ((calls ++ crash_calls e)%list,
                  if gc_debug general_config then Raise e else Return PyNone)
            else (calls, Raise e)
        end
    end.
Proof.
  unfold run, _setup_emitter, start_outcome, start_calls, crash_calls.
  cmd_simpl.
  destruct (create_character w character_options (gc_emitter general_config)
              config_file (gc_json_ipc general_config) true)
    as [tr [ALICE|e]]; [ | reflexivity].
  destruct (gc_json_ipc general_config); cmd_simpl.
  - destruct (rpc_start w ALICE) as [[]|e]; cmd_simpl;
      [ | destruct (is_Exception e); [destruct (gc_debug general_config) | ] ];
      cmd_simpl; rewrite <- ?app_assoc; reflexivity.
  - destruct (web_start w ALICE _ controller_port dry_run) as [v|e]; cmd_simpl;
      [ | destruct (is_Exception e); [destruct (gc_debug general_config) | ] ];
      cmd_simpl; rewrite <- ?app_assoc; reflexivity.
Qed.

Lemma start_calls_kind
    (general_config : GeneralConfig) (ALICE : Alice) (controller_port : Z)
    (dry_run : bool) :
  let calls := start_calls general_config ALICE controller_port dry_run in
  existsb is_rpc_event calls = gc_json_ipc general_config
  ∧ existsb is_web_event calls = negb (gc_json_ipc general_config)
  ∧ List.filter is_start calls
    = (if gc_json_ipc general_config then [EvRpcStart]
       else [EvWebStart controller_port dry_run])
  ∧ existsb is_unlock_attempt calls = false
  ∧ existsb is_crash_report calls = false.
Proof.
  unfold start_calls. destruct (gc_json_ipc general_config); repeat split.
Qed.

(** Every path of [run], with what is known of the calls on it. *)
Ltac split_run general_config character_options config_file controller_port dry_run :=
  rewrite run_unfold;
  pose proof (create_character_never_calls w is_listener_event character_options
                (gc_emitter general_config) config_file
                (gc_json_ipc general_config) true
                (λ _, eq_refl) (λ _, eq_refl) (λ _, eq_refl) (λ _, eq_refl)
                (λ _ _ _, eq_refl)) as Hquiet;
  pose proof (create_character_never_calls w is_crash_report character_options
                (gc_emitter general_config) config_file
                (gc_json_ipc general_config) true
                (λ _, eq_refl) (λ _, eq_refl) (λ _, eq_refl) (λ _, eq_refl)
                (λ _ _ _, eq_refl)) as Hcalm;
  destruct (create_character w character_options (gc_emitter general_config)
              config_file (gc_json_ipc general_config) true)
    as [tr [alice|e0]] eqn:Hcc; cbn [trace fst] in Hquiet, Hcalm;
  [ pose proof (start_calls_kind general_config alice controller_port dry_run)
      as (Hrpc & Hweb & Hstart & Hunlock & Hcrash);
    cbv zeta in Hrpc, Hweb, Hstart, Hunlock, Hcrash |- *;
    destruct (start_outcome w general_config alice controller_port dry_run)
      as [started|e1] eqn:Hout;
    [ | destruct (is_Exception e1) eqn:Hexc ] | ];
  cbn [trace outcome fst snd].

Lemma existsb_weaken (f g : Event → bool) (tr : list Event) :
  (∀ ev, g ev = true → f ev = true) →
  existsb f tr = false → existsb g tr = false.
Proof.
  intros Hsub Hf. destruct (existsb g tr) eqn:Hg; [ | reflexivity].
  apply existsb_exists in Hg as (ev & Hin & Hev).
  assert (existsb f tr = true) by (apply existsb_exists; eauto).
  congruence.
Qed.

Lemma rpc_is_listener (ev : Event) : is_rpc_event ev = true → is_listener_event ev = true.
Proof. by destruct ev. Qed.

Lemma web_is_listener (ev : Event) : is_web_event ev = true → is_listener_event ev = true.
Proof. by destruct ev. Qed.

Lemma start_is_listener (ev : Event) : is_start ev = true → is_listener_event ev = true.
Proof. by destruct ev. Qed.

(** X15: [run] works with one transport: calls to the RPC controller
    occur only with --json-ipc, calls to the web controller only without
    it, and a controller is started at most once. *)
Theorem run_one_transport
    (general_config : GeneralConfig) (character_options : t)
    (config_file : option string) (controller_port : Z) (dry_run : bool) :
  let r := run w general_config character_options config_file
             controller_port dry_run in
  (existsb is_rpc_event (trace r) = true → gc_json_ipc general_config = true)
  ∧ (existsb is_web_event (trace r) = true → gc_json_ipc general_config = false)
  ∧ (length (List.filter is_start (trace r)) ≤ 1)%nat.
Proof.
  cbv zeta.
  split_run general_config character_options config_file controller_port dry_run.
  all: pose proof (existsb_weaken _ _ _ rpc_is_listener Hquiet) as Hr.
  all: pose proof (existsb_weaken _ _ _ web_is_listener Hquiet) as Hw.
  all: pose proof (existsb_false_filter_nil _ _
                     (existsb_weaken _ _ _ start_is_listener Hquiet)) as Hs.
  all: repeat first
         [ rewrite List.filter_app | rewrite existsb_app
         | progress cbn [existsb List.filter crash_calls is_rpc_event
                         is_web_event is_start orb app] ].
  all: rewrite ?Hr, ?Hw, ?Hs, ?Hrpc, ?Hweb, ?Hstart, ?orb_false_r, ?app_nil_r.
  all: destruct (gc_json_ipc general_config); cbn; repeat split;
    first [discriminate | lia | reflexivity].
Qed.

(** X16: [run] builds or starts a controller only after its unlock attempt
    returned an Alice; no controller call comes before that attempt. *)
Theorem run_listener_after_unlock
    (general_config : GeneralConfig) (character_options : t)
    (config_file : option string) (controller_port : Z) (dry_run : bool) :
  let r := run w general_config character_options config_file
             controller_port dry_run in
  existsb is_listener_event (trace r) = true →
  ∃ before a ALICE rest,
    trace r = (before ++ EvMakeCliCharacter a :: rest)%list
    ∧ make_cli_character w a = Return ALICE
    ∧ existsb is_listener_event before = false.
Proof.
  cbv zeta. rewrite run_unfold.
  pose proof (create_character_never_calls w is_listener_event character_options
                (gc_emitter general_config) config_file
                (gc_json_ipc general_config) true
                (λ _, eq_refl) (λ _, eq_refl) (λ _, eq_refl) (λ _, eq_refl)
                (λ _ _ _, eq_refl)) as Hquiet.
  destruct (create_character w character_options (gc_emitter general_config)
              config_file (gc_json_ipc general_config) true)
    as [tr [ALICE|e0]] eqn:Hcc; cbn [trace fst] in Hquiet.
  2: { cbn. rewrite Hquiet. discriminate. }
  destruct (create_character_returned w _ _ _ _ _ _ _ Hcc)
    as (before & a & -> & Hmake & _ & Hl & _).
  intros _. cbv zeta.
  exists (EvEmitterClear :: EvEmitterBanner :: before), a, ALICE.
  destruct (start_outcome w general_config ALICE controller_port dry_run)
    as [v|e1]; [ | destruct (is_Exception e1)]; cbn [trace fst];
    eexists; (split; [ | split; [exact Hmake | cbn; exact Hl]]);
    cbn; rewrite <- ?app_assoc; reflexivity.
Qed.

(** X17: the web controller is started on the port and with the
    --dry-run value [run] was given, by a controller made with
    crash_on_error set to the debug flag, and only without --json-ipc. *)
Theorem run_web_start_arguments
    (general_config : GeneralConfig) (character_options : t)
    (config_file : option string) (controller_port : Z) (dry_run : bool)
    (port : Z) (flag : bool) :
  let r := run w general_config character_options config_file
             controller_port dry_run in
  In (EvWebStart port flag) (trace r) →
  port = controller_port
  ∧ flag = dry_run
  ∧ gc_json_ipc general_config = false
  ∧ In (EvMakeWebController (gc_debug general_config)) (trace r).
Proof.
  cbv zeta.
  split_run general_config character_options config_file controller_port dry_run.
  all: unfold start_calls, crash_calls in *.
  all: intros Hin.
  all: try (exfalso; revert Hin; cbn [In];
            intros [Hin | [Hin | Hin]]; try discriminate Hin; revert Hin;
            by apply (existsb_false_not_In _ _ _ Hquiet)).
  all: destruct (gc_json_ipc general_config).
  all: cbn [In] in Hin; destruct Hin as [Hin | [Hin | Hin]];
    try discriminate Hin.
  all: rewrite <- ?app_assoc in Hin; apply in_app_or in Hin as [Hin | Hin];
    try (exfalso; revert Hin; by apply (existsb_false_not_In _ _ _ Hquiet)).
  all: in_cases Hin.
  all: injection Hin as <- <-; repeat split.
  all: cbn [In]; right; right; rewrite <- ?app_assoc; apply in_or_app; right;
    cbn; tauto.
Qed.

(** X18: when the controller [run] starts returns, its last call was that
    start, no crash is reported, and [run] returns what the start returned
    (None for the RPC controller). *)
Theorem run_returns_start_result
    (general_config : GeneralConfig) (character_options : t)
    (config_file : option string) (controller_port : Z) (dry_run : bool)
    (calls : list Event) (ALICE : Alice) (v : PyVal) :
  let r := run w general_config character_options config_file
             controller_port dry_run in
  create_character w character_options (gc_emitter general_config) config_file
    (gc_json_ipc general_config) true = (calls, Return ALICE) →
  (if gc_json_ipc general_config
   then rpc_start w ALICE = Return tt ∧ v = PyNone
   else web_start w ALICE (gc_debug general_config) controller_port dry_run
        = Return v) →
  outcome r = Return v
  ∧ existsb is_crash_report (trace r) = false
  ∧ ∃ before,
      trace r
      = (before ++ [if gc_json_ipc general_config then EvRpcStart
                    else EvWebStart controller_port dry_run])%list.
Proof.
  cbv zeta. intros Hcalls Hstarted.
  split_run general_config character_options config_file controller_port dry_run;
    try discriminate Hcalls.
  all: injection Hcalls as <- <-.
  all: unfold start_outcome, start_calls in *.
  all: destruct (gc_json_ipc general_config);
    [ destruct Hstarted as [Hstarted ->] | ]; rewrite Hstarted in Hout;
    try discriminate Hout.
  all: injection Hout as <-.
  all: split; [reflexivity | ].
  all: split; [cbn; rewrite existsb_app, Hcalm; reflexivity | ].
  - exists (EvEmitterClear :: EvEmitterBanner :: tr
            ++ [EvMakeRpcController; EvMakeControlTransport])%list.
    cbn. rewrite <- app_assoc. reflexivity.
  - eexists (EvEmitterClear :: EvEmitterBanner :: tr ++ [_; _; _; _])%list.
    cbn. rewrite <- app_assoc. reflexivity.
Qed.

(** X19: an Exception raised by the start of the controller is reported,
    to the log as critical and to the emitter as class name and message in
    bold red, once; then [run] raises it again with the debug flag, and
    returns None without it. *)
Theorem run_crash_reported
    (general_config : GeneralConfig) (character_options : t)
    (config_file : option string) (controller_port : Z) (dry_run : bool)
    (calls : list Event) (ALICE : Alice) (e : exn) :
  let r := run w general_config character_options config_file
             controller_port dry_run in
  create_character w character_options (gc_emitter general_config) config_file
    (gc_json_ipc general_config) true = (calls, Return ALICE) →
  (if gc_json_ipc general_config
   then rpc_start w ALICE = Raise e
   else web_start w ALICE (gc_debug general_config) controller_port dry_run
        = Raise e) →
  is_Exception e = true →
  outcome r = (if gc_debug general_config then Raise e else Return PyNone)
  ∧ ∃ before,
      trace r
      = (before
         ++ [EvLogCritical (str_of e);
             EvEmitterMessage (class_name_of e ++ " " ++ str_of e)
               (Some "red") true])%list
      ∧ existsb is_crash_report before = false.
Proof.
  cbv zeta. intros Hcalls Hstarted Hcaught.
  split_run general_config character_options config_file controller_port dry_run;
    try discriminate Hcalls.
  all: injection Hcalls as <- <-.
  all: assert (Hraised : start_outcome w general_config alice controller_port
                           dry_run = Raise e)
         by (unfold start_outcome; destruct (gc_json_ipc general_config);
             by rewrite Hstarted).
  all: rewrite Hraised in Hout; try discriminate Hout.
  all: injection Hout as <-; try congruence.
  split; [reflexivity | ].
  eexists. split; [reflexivity | ].
  cbn. rewrite existsb_app, Hcalm, Hcrash. reflexivity.
Qed.

(** X20: what the start of the controller raises that is not an Exception
    (a keyboard interrupt) goes through [run] unreported, even without the
    debug flag. *)
Theorem run_interrupt_not_caught
    (general_config : GeneralConfig) (character_options : t)
    (config_file : option string) (controller_port : Z) (dry_run : bool)
    (calls : list Event) (ALICE : Alice) (e : exn) :
  let r := run w general_config character_options config_file
             controller_port dry_run in
  create_character w character_options (gc_emitter general_config) config_file
    (gc_json_ipc general_config) true = (calls, Return ALICE) →
  (if gc_json_ipc general_config
   then rpc_start w ALICE = Raise e
   else web_start w ALICE (gc_debug general_config) controller_port dry_run
        = Raise e) →
  is_Exception e = false →
  outcome r = Raise e
  ∧ existsb is_crash_report (trace r) = false.
Proof.
  cbv zeta. intros Hcalls Hstarted Hpassed.
  split_run general_config character_options config_file controller_port dry_run;
    try discriminate Hcalls.
  all: injection Hcalls as <- <-.
  all: assert (Hraised : start_outcome w general_config alice controller_port
                           dry_run = Raise e)
         by (unfold start_outcome; destruct (gc_json_ipc general_config);
             by rewrite Hstarted).
  all: rewrite Hraised in Hout; try discriminate Hout.
  all: injection Hout as <-; try congruence.
  split; [reflexivity | ].
  cbn. rewrite existsb_app, Hcalm, Hcrash. reflexivity.
Qed.

(** [grant], one path at a time. *)
Lemma grant_unfold
    (general_config : GeneralConfig)
    (bob_encrypting_key bob_verifying_key label : string)
    (m n : option Z) (expiration : option string) (value rate : option Z)
    (character_options : t) (config_file : option string) :
  grant w general_config bob_encrypting_key bob_verifying_key label m n
    expiration value rate character_options config_file
  = match create_character w character_options (gc_emitter general_config)
            config_file (gc_json_ipc general_config) true with
    | (tr, Raise e) => (EvEmitterClear :: EvEmitterBanner :: tr, Raise e)
    | (tr, Return ALICE) =>
        let base := base_grant_request bob_encrypting_key bob_verifying_key
                      label m n expiration in
        let request :=
          if alice_federated_only ALICE then base
          else dict_update base
                 [("value", py_of_int value); ("rate", py_of_int rate)] in
        ((EvEmitterClear :: EvEmitterBanner :: tr
          ++ [EvControllerGrant request])%list,
         controller_grant w ALICE request)
    end.
Proof.
  unfold grant, _setup_emitter, base_grant_request. cmd_simpl.
  destruct (create_character w character_options (gc_emitter general_config)
              config_file (gc_json_ipc general_config) true)
    as [tr [ALICE|e]]; [ | reflexivity].
  destruct (alice_federated_only ALICE); reflexivity.
Qed.

(** X21: for an Alice that is not federated, [grant] forwards value and
    rate as they are, beside the six fields every request has; both keys
    are in the request even when the option was not given, then with None.
    The request goes to the granting service right after Alice is made,
    and what the service answers is the outcome. *)
Theorem grant_chain_backed_forwards_payment
    (general_config : GeneralConfig)
    (bob_encrypting_key bob_verifying_key label : string)
    (m n : option Z) (expiration : option string) (value rate : option Z)
    (character_options : t) (config_file : option string)
    (calls : list Event) (ALICE : Alice) :
  create_character w character_options (gc_emitter general_config) config_file
    (gc_json_ipc general_config) true = (calls, Return ALICE) →
  alice_federated_only ALICE = false →
  ∃ request,
    grant w general_config bob_encrypting_key bob_verifying_key label m n
      expiration value rate character_options config_file
    = ((EvEmitterClear :: EvEmitterBanner :: calls)
       ++ [EvControllerGrant request], controller_grant w ALICE request)%list
    ∧ request !! "value" = Some (py_of_int value)
    ∧ request !! "rate" = Some (py_of_int rate)
    ∧ request !! "bob_encrypting_key" = Some (PyStr bob_encrypting_key)
    ∧ request !! "bob_verifying_key" = Some (PyStr bob_verifying_key)
    ∧ request !! "label" = Some (PyStr label)
    ∧ request !! "m" = Some (py_of_int m)
    ∧ request !! "n" = Some (py_of_int n)
    ∧ request !! "expiration" = Some (py_of_str expiration)
    ∧ size request = 8%nat.
Proof.
  intros Hcalls Hchain. rewrite grant_unfold, Hcalls, Hchain. cbv zeta.
  eexists. split; [reflexivity | ].
  unfold base_grant_request, dict_of, dict_update. cbn [fold_left fst snd].
  repeat split; by simplify_map_eq.
Qed.

(** X22: [grant] calls the granting service only after its unlock attempt
    returned an Alice, as its last call and no more than once; the request
    has the six fields every request has, and value and rate exactly when
    that Alice is not federated. *)
Theorem grant_after_unlock
    (general_config : GeneralConfig)
    (bob_encrypting_key bob_verifying_key label : string)
    (m n : option Z) (expiration : option string) (value rate : option Z)
    (character_options : t) (config_file : option string)
    (request : gmap string PyVal) :
  let r := grant w general_config bob_encrypting_key bob_verifying_key label
             m n expiration value rate character_options config_file in
  In (EvControllerGrant request) (trace r) →
  ∃ before a ALICE,
    trace r = (before ++ [EvMakeCliCharacter a; EvControllerGrant request])%list
    ∧ existsb is_grant_call before = false
    ∧ make_cli_character w a = Return ALICE
    ∧ outcome r = controller_grant w ALICE request
    ∧ request !! "label" = Some (PyStr label)
    ∧ request !! "bob_verifying_key" = Some (PyStr bob_verifying_key)
    ∧ request !! "bob_encrypting_key" = Some (PyStr bob_encrypting_key)
    ∧ (is_Some (request !! "value") ↔ alice_federated_only ALICE = false)
    ∧ (is_Some (request !! "rate") ↔ alice_federated_only ALICE = false).
Proof.
  cbv zeta. rewrite grant_unfold.
  pose proof (create_character_never_calls w is_grant_call character_options
                (gc_emitter general_config) config_file
                (gc_json_ipc general_config) true
                (λ _, eq_refl) (λ _, eq_refl) (λ _, eq_refl) (λ _, eq_refl)
                (λ _ _ _, eq_refl)) as Hquiet.
  destruct (create_character w character_options (gc_emitter general_config)
              config_file (gc_json_ipc general_config) true)
    as [tr [ALICE|e0]] eqn:Hcc; cbn [trace outcome fst snd] in *.
  2: { intros [Hin | [Hin | Hin]]; try discriminate Hin.
       exfalso. revert Hin. by apply (existsb_false_not_In _ _ _ Hquiet). }
  destruct (create_character_returned w _ _ _ _ _ _ _ Hcc)
    as (before & a & -> & Hmake & _ & _ & Hg).
  intros [Hin | [Hin | Hin]]; try discriminate Hin.
  apply in_app_or in Hin as [Hin | Hin].
  { exfalso. revert Hin. by apply (existsb_false_not_In _ _ _ Hquiet). }
  in_cases Hin. injection Hin as <-.
  exists (EvEmitterClear :: EvEmitterBanner :: before), a, ALICE.
  split; [cbn; rewrite <- app_assoc; reflexivity | ].
  split; [cbn; exact Hg | ]. split; [exact Hmake | ]. split; [reflexivity | ].
  unfold base_grant_request, dict_of, dict_update.
  destruct (alice_federated_only ALICE); cbn [fold_left fst snd];
    repeat split; try (by simplify_map_eq);
    try (intros [? H]; by simplify_map_eq); try discriminate;
    intros _; by simplify_map_eq.
Qed.

(** [init], around [generate_config]. *)
Lemma init_unfold
    (general_config : GeneralConfig) (self : AliceConfigOptions.t)
    (config_root : option string) (poa light : bool) (m n rate : option Z)
    (duration_periods : option float) :
  init w general_config self config_root poa light m n rate duration_periods
  = let root := if truthy_str config_root then config_root
                else gc_config_root general_config in
    match AliceConfigOptions.generate_config w self (gc_emitter general_config)
            root poa light m n duration_periods rate with
    | (tr, Return new_alice_config) =>
        ((EvEmitterClear :: EvEmitterBanner :: tr
          ++ [EvPaintNewInstallationHelp new_alice_config])%list, Return tt)
    | (tr, Raise e) => (EvEmitterClear :: EvEmitterBanner :: tr, Raise e)
    end.
Proof.
  unfold init, _setup_emitter. cmd_simpl.
  destruct (truthy_str config_root); cbn;
    destruct (AliceConfigOptions.generate_config w self _ _ poa light m n
                duration_periods rate) as [tr [cfg|e]]; reflexivity.
Qed.

(** X23: what [init] has written comes from its own parameters, each under
    its own name: the configuration root given, or the one of the general
    configuration when none or an empty one was given; m, n, rate and the
    duration; the flags poa and light; the rest from the options. *)
Theorem init_written_arguments
    (general_config : GeneralConfig) (self : AliceConfigOptions.t)
    (config_root : option string) (poa light : bool) (m n rate : option Z)
    (duration_periods : option float) (a : AliceConfiguration.generate_args) :
  In (EvGenerate a)
    (trace (init w general_config self config_root poa light m n rate
              duration_periods)) →
  AliceConfiguration.g_config_root a
  = (if truthy_str config_root then config_root
     else gc_config_root general_config)
  ∧ AliceConfiguration.g_m a = m
  ∧ AliceConfiguration.g_n a = n
  ∧ AliceConfiguration.g_rate a = rate
  ∧ AliceConfiguration.g_duration_periods a = duration_periods
  ∧ AliceConfiguration.g_poa a = poa
  ∧ AliceConfiguration.g_light a = light
  ∧ AliceConfiguration.g_domains a = AliceConfigOptions.domains self
  ∧ AliceConfiguration.g_federated_only a = AliceConfigOptions.federated_only self
  ∧ AliceConfiguration.g_provider_uri a = AliceConfigOptions.provider_uri self
  ∧ AliceConfiguration.g_provider_process a = AliceConfigOptions.eth_node self
  ∧ AliceConfiguration.g_registry_filepath a
    = AliceConfigOptions.registry_filepath self.
Proof.
  rewrite init_unfold. cbv zeta.
  split_generate_config w self;
    try (destruct (generate w _) as [cfg|e]); cbn [trace fst];
    intros Hin; in_cases Hin.
  all: rewrite <- ?app_assoc in Hin; in_cases Hin.
  all: injection Hin as <-; repeat split.
Qed.

(** X24: [init] prints the help for a new installation only for a
    configuration that [AliceConfiguration.generate] has just returned;
    that is then its last call and [init] ends normally. *)
Theorem init_paints_after_write
    (general_config : GeneralConfig) (self : AliceConfigOptions.t)
    (config_root : option string) (poa light : bool) (m n rate : option Z)
    (duration_periods : option float) (new_configuration : AliceConfiguration.t) :
  let r := init w general_config self config_root poa light m n rate
             duration_periods in
  In (EvPaintNewInstallationHelp new_configuration) (trace r) →
  outcome r = Return tt
  ∧ ∃ before a,
      trace r = (before ++ [EvGenerate a;
                            EvPaintNewInstallationHelp new_configuration])%list
      ∧ generate w a = Return new_configuration.
Proof.
  cbv zeta. rewrite init_unfold. cbv zeta.
  split_generate_config w self;
    try (destruct (generate w _) as [cfg|e] eqn:Hgen); cbn [trace outcome fst snd];
    intros Hin; in_cases Hin.
  all: rewrite <- ?app_assoc in Hin; in_cases Hin.
  all: injection Hin as <-; split; [reflexivity | ].
  all: first
         [ eexists [_; _; _], _; split; [reflexivity | exact Hgen]
         | eexists [_; _; _; _], _; split; [reflexivity | exact Hgen] ].
Qed.

End MoreCommands.

(** ** The commands that call a controller once *)

Section ControllerCommands.
Context (w : World) (ctl : Controller).
Import AliceCharacterOptions.

Lemma In_inl_map (ev : Event) (tr : list Event) :
  In (inl ev) (List.map (@inl Event ControlEvent) tr) ↔ In ev tr.
Proof.
  rewrite in_map_iff. split.
  - intros (x & Hx & Hin). by injection Hx as ->.
  - intros Hin. by exists ev.
Qed.

Lemma not_In_inr_map (c : ControlEvent) (tr : list Event) :
  ¬ In (inr c) (List.map (@inl Event ControlEvent) tr).
Proof.
  rewrite in_map_iff. by intros (x & Hx & _).
Qed.

Lemma no_control_call_in_map (tr : list Event) :
  existsb is_control_call (List.map (@inl Event ControlEvent) tr) = false.
Proof.
  induction tr as [|ev tr IH]; [reflexivity | exact IH].
Qed.

Lemma xcall_then_return {A} (ev : ControlEvent) (answer : Outcome A) :
  (response ← xcall ev answer; mret response) = xcall ev answer.
Proof. by destruct answer. Qed.

(** A command that makes Alice and then calls a controller once. *)
Lemma alice_command_shape
    (general_config : GeneralConfig) (character_options : t)
    (config_file : option string) (load_seednodes : bool)
    (ev : ControlEvent) (answer : Alice → Outcome PyVal)
    (k : Alice → XCmd PyVal) :
  (∀ ALICE, k ALICE = xcall ev (answer ALICE)) →
  let r : XCmd PyVal :=
    emitter ← lift (_setup_emitter general_config);
    ALICE ← lift (create_character w character_options emitter config_file
                    (gc_json_ipc general_config) load_seednodes);
    k ALICE in
  (∀ c, In (inr c) (trace_x r) →
     ∃ before a ALICE,
       trace_x r = (List.map inl (before ++ [EvMakeCliCharacter a]) ++ [inr c])%list
       ∧ c = ev
       ∧ make_cli_character w a = Return ALICE
       ∧ mc_load_preferred_teachers a = load_seednodes
       ∧ mc_start_learning_now a = load_seednodes
       ∧ outcome_x r = answer ALICE)
  ∧ (∀ a message,
       In (inl (EvMakeCliCharacter a)) (trace_x r) →
       make_cli_character w a = Raise (AuthenticationFailed message) →
       outcome_x r = Raise (Exit 1)
       ∧ existsb is_control_call (trace_x r) = false).
Proof.
  intros Hk. cbv zeta.
  unfold mbind, XCmd_bind, lift, _setup_emitter, trace_x, outcome_x.
  cmd_simpl.
  pose proof (create_character_attempt_flags w character_options
                (gc_emitter general_config) config_file
                (gc_json_ipc general_config) load_seednodes) as Hflags.
  pose proof (create_character_wrong_password w character_options
                (gc_emitter general_config) config_file
                (gc_json_ipc general_config) load_seednodes) as Hwrong.
  destruct (create_character w character_options (gc_emitter general_config)
              config_file (gc_json_ipc general_config) load_seednodes)
    as [tr [ALICE|e0]] eqn:Hcc; cbn [trace fst snd] in *.
  - destruct (create_character_returned w _ _ _ _ _ _ _ Hcc)
      as (before & a & -> & Hmake & Hu & _ & _).
    rewrite Hk. unfold xcall. cbn [fst snd].
    split.
    + intros c [Hin | [Hin | Hin]]; try discriminate Hin.
      apply in_app_or in Hin as [Hin | Hin];
        [by apply not_In_inr_map in Hin | ].
      in_cases Hin. injection Hin as <-.
      destruct (Hflags a) as [Hp Hs]; [apply in_or_app; right; by left | ].
      exists (EvEmitterClear :: EvEmitterBanner :: before), a, ALICE.
      repeat split; assumption.
    + intros a' message [Hin | [Hin | Hin]] Hauth; try discriminate Hin.
      apply in_app_or in Hin as [Hin | Hin]; [ | in_cases Hin].
      apply In_inl_map in Hin.
      destruct (Hwrong a' message Hin Hauth) as (tr' & Heq & _).
      discriminate Heq.
  - split.
    + intros c [Hin | [Hin | Hin]]; try discriminate Hin.
      by apply not_In_inr_map in Hin.
    + intros a message [Hin | [Hin | Hin]] Hauth; try discriminate Hin.
      apply In_inl_map in Hin.
      destruct (Hwrong a message Hin Hauth) as (tr' & Heq & _).
      injection Heq as -> ->. split; [reflexivity | ].
      apply no_control_call_in_map.
Qed.

(** X25: [public-keys] asks the controller for the keys only after its
    unlock attempt returned an Alice, made without loading seednodes, and
    returns what the controller answers; after AuthenticationFailed it
    ends in [Exit 1] and the controller is not called. *)
Theorem public_keys_after_unlock
    (general_config : GeneralConfig) 
    (character_options : t) (config_file : option string) :
  let r := public_keys w ctl general_config character_options config_file in
  (∀ c, In (inr c) (trace_x r) →
     ∃ before a ALICE,
       trace_x r
       = (List.map inl (before ++ [EvMakeCliCharacter a]) ++ [inr c])%list
       ∧ c = EvControllerPublicKeys
       ∧ make_cli_character w a = Return ALICE
       ∧ mc_load_preferred_teachers a = false
       ∧ mc_start_learning_now a = false
       ∧ outcome_x r = controller_public_keys ctl ALICE)
  ∧ (∀ a message,
       In (inl (EvMakeCliCharacter a)) (trace_x r) →
       make_cli_character w a = Raise (AuthenticationFailed message) →
       outcome_x r = Raise (Exit 1)
       ∧ existsb is_control_call (trace_x r) = false).
Proof.
  cbv zeta.
  pose proof (alice_command_shape general_config character_options
                config_file false
                (EvControllerPublicKeys)
                (λ ALICE, controller_public_keys ctl ALICE) _
                (λ ALICE, xcall_then_return _ _)) as [Hcall Hwrong].
  split; [exact Hcall | ].
  exact Hwrong.
Qed.

(** X26: [derive-policy-pubkey] hands the label as it is to the
    controller, only after its unlock attempt returned an Alice, made
    without loading seednodes, and returns what the controller answers;
    after AuthenticationFailed it ends in [Exit 1] and the controller is not
    called. *)
Theorem derive_policy_pubkey_after_unlock
    (general_config : GeneralConfig) (label : string)
    (character_options : t) (config_file : option string) :
  let r := derive_policy_pubkey w ctl general_config label character_options config_file in
  (∀ c, In (inr c) (trace_x r) →
     ∃ before a ALICE,
       trace_x r
       = (List.map inl (before ++ [EvMakeCliCharacter a]) ++ [inr c])%list
       ∧ c = EvControllerDerivePolicyEncryptingKey label
       ∧ make_cli_character w a = Return ALICE
       ∧ mc_load_preferred_teachers a = false
       ∧ mc_start_learning_now a = false
       ∧ outcome_x r = controller_derive_policy_encrypting_key ctl ALICE label)
  ∧ (∀ a message,
       In (inl (EvMakeCliCharacter a)) (trace_x r) →
       make_cli_character w a = Raise (AuthenticationFailed message) →
       outcome_x r = Raise (Exit 1)
       ∧ existsb is_control_call (trace_x r) = false).
Proof.
  cbv zeta.
  pose proof (alice_command_shape general_config character_options
                config_file false
                (EvControllerDerivePolicyEncryptingKey label)
                (λ ALICE,
                   controller_derive_policy_encrypting_key ctl ALICE label)
                _
                (λ ALICE, eq_refl)) as [Hcall Hwrong].
  split; [exact Hcall | ].
  exact Hwrong.
Qed.

(** X27: [revoke] sends a request of exactly two fields, the label and
    the verifying key of Bob as given, only after its unlock attempt
    returned an Alice, made with seednodes loaded, and returns what the
    controller answers; after AuthenticationFailed it ends in [Exit 1] and
    the controller is not called. *)
Theorem revoke_after_unlock
    (general_config : GeneralConfig) (bob_verifying_key label : string)
    (character_options : t) (config_file : option string) :
  let r := revoke w ctl general_config bob_verifying_key label character_options config_file in
  let request :=
    dict_of [("label", PyStr label);
             ("bob_verifying_key", PyStr bob_verifying_key)] in
  (∀ c, In (inr c) (trace_x r) →
     ∃ before a ALICE,
       trace_x r
       = (List.map inl (before ++ [EvMakeCliCharacter a]) ++ [inr c])%list
       ∧ c = EvControllerRevoke request
       ∧ make_cli_character w a = Return ALICE
       ∧ mc_load_preferred_teachers a = true
       ∧ mc_start_learning_now a = true
       ∧ outcome_x r = controller_revoke ctl ALICE request)
  ∧ request !! "label" = Some (PyStr label)
  ∧ request !! "bob_verifying_key" = Some (PyStr bob_verifying_key)
  ∧ size request = 2%nat
  ∧ (∀ a message,
       In (inl (EvMakeCliCharacter a)) (trace_x r) →
       make_cli_character w a = Raise (AuthenticationFailed message) →
       outcome_x r = Raise (Exit 1)
       ∧ existsb is_control_call (trace_x r) = false).
Proof.
  cbv zeta.
  pose proof (alice_command_shape general_config character_options
                config_file true
                (EvControllerRevoke
                   (dict_of [("label", PyStr label);
                             ("bob_verifying_key", PyStr bob_verifying_key)]))
                (λ ALICE,
                   controller_revoke ctl ALICE
                     (dict_of [("label", PyStr label);
                               ("bob_verifying_key", PyStr bob_verifying_key)]))
                _
                (λ ALICE, eq_refl)) as [Hcall Hwrong].
  split; [exact Hcall | ].
  split;
    [by unfold dict_of, dict_update; cbn [fold_left fst snd]; simplify_map_eq | ].
  split;
    [by unfold dict_of, dict_update; cbn [fold_left fst snd]; simplify_map_eq | ].
  split;
    [by unfold dict_of, dict_update; cbn [fold_left fst snd]; simplify_map_eq | ].
  exact Hwrong.
Qed.

(** X28: [decrypt] sends a request of exactly two fields, the label and
    the message kit as given, only after its unlock attempt returned an
    Alice, made without loading seednodes, and returns what the controller
    answers; after AuthenticationFailed it ends in [Exit 1] and the
    controller is not called. *)
Theorem decrypt_after_unlock
    (general_config : GeneralConfig) (label message_kit : string)
    (character_options : t) (config_file : option string) :
  let r := decrypt w ctl general_config label message_kit character_options config_file in
  let request :=
    dict_of [("label", PyStr label); ("message_kit", PyStr message_kit)] in
  (∀ c, In (inr c) (trace_x r) →
     ∃ before a ALICE,
       trace_x r
       = (List.map inl (before ++ [EvMakeCliCharacter a]) ++ [inr c])%list
       ∧ c = EvControllerDecrypt request
       ∧ make_cli_character w a = Return ALICE
       ∧ mc_load_preferred_teachers a = false
       ∧ mc_start_learning_now a = false
       ∧ outcome_x r = controller_decrypt ctl ALICE request)
  ∧ request !! "label" = Some (PyStr label)
  ∧ request !! "message_kit" = Some (PyStr message_kit)
  ∧ size request = 2%nat
  ∧ (∀ a message,
       In (inl (EvMakeCliCharacter a)) (trace_x r) →
       make_cli_character w a = Raise (AuthenticationFailed message) →
       outcome_x r = Raise (Exit 1)
       ∧ existsb is_control_call (trace_x r) = false).
Proof.
  cbv zeta.
  pose proof (alice_command_shape general_config character_options
                config_file false
                (EvControllerDecrypt
                   (dict_of [("label", PyStr label);
                             ("message_kit", PyStr message_kit)]))
                (λ ALICE,
                   controller_decrypt ctl ALICE
                     (dict_of [("label", PyStr label);
                               ("message_kit", PyStr message_kit)]))
                _
                (λ ALICE, xcall_then_return _ _)) as [Hcall Hwrong].
  split; [exact Hcall | ].
  split;
    [by unfold dict_of, dict_update; cbn [fold_left fst snd]; simplify_map_eq | ].
  split;
    [by unfold dict_of, dict_update; cbn [fold_left fst snd]; simplify_map_eq | ].
  split;
    [by unfold dict_of, dict_update; cbn [fold_left fst snd]; simplify_map_eq | ].
  exact Hwrong.
Qed.

(** X29: [destroy] needs no password: it makes no unlock attempt and no
    password prompt.  It removes only a configuration that [create_config]
    returned, with the force flag as given, as its last call, and returns
    what the removal answers; when [create_config] raises, nothing is
    removed. *)
Theorem destroy_after_create_config
    (general_config : GeneralConfig) (config_options : AliceConfigOptions.t)
    (config_file : option string) (force : bool) :
  let r := destroy w ctl general_config config_options config_file force in
  (∀ ev, In (inl ev) (trace_x r) →
     is_unlock_attempt ev = false ∧ is_client_password_prompt ev = false)
  ∧ (∀ c, In (inr c) (trace_x r) →
       ∃ tr alice_config,
         AliceConfigOptions.create_config w config_options
           (gc_emitter general_config) config_file = (tr, Return alice_config)
         ∧ c = EvDestroyConfiguration alice_config force
         ∧ trace_x r
           = (List.map inl (EvEmitterClear :: EvEmitterBanner :: tr) ++ [inr c])%list
         ∧ outcome_x r = destroy_configuration ctl alice_config force)
  ∧ (∀ tr e,
       AliceConfigOptions.create_config w config_options
         (gc_emitter general_config) config_file = (tr, Raise e) →
       outcome_x r = Raise e
       ∧ existsb is_control_call (trace_x r) = false).
Proof.
  cbv zeta.
  unfold destroy, mbind, XCmd_bind, lift, xcall, _setup_emitter, trace_x, outcome_x.
  cmd_simpl.
  pose proof (create_config_only_config_calls w is_unlock_attempt config_options
                (gc_emitter general_config) config_file
                (λ _, eq_refl) (λ _, eq_refl)) as Hu.
  pose proof (create_config_only_config_calls w is_client_password_prompt
                config_options (gc_emitter general_config) config_file
                (λ _, eq_refl) (λ _, eq_refl)) as Hp.
  destruct (AliceConfigOptions.create_config w config_options
              (gc_emitter general_config) config_file)
    as [tr [alice_config|e0]]; cbn [trace fst snd] in *.
  all: assert (Hleft : ∀ ev, In ev tr →
                 is_unlock_attempt ev = false
                 ∧ is_client_password_prompt ev = false).
  1, 3: intros ev Hin; split;
    [ destruct (is_unlock_attempt ev) eqn:Hev; [ | reflexivity];
      exfalso; revert Hin; by apply (existsb_false_not_In _ _ _ Hu)
    | destruct (is_client_password_prompt ev) eqn:Hev; [ | reflexivity];
      exfalso; revert Hin; by apply (existsb_false_not_In _ _ _ Hp) ].
  - split; [ | split].
    + intros ev [Hin | [Hin | Hin]];
        try (injection Hin as <-; by split).
      apply in_app_or in Hin as [Hin | Hin]; [ | in_cases Hin].
      apply In_inl_map in Hin. by apply Hleft.
    + intros c [Hin | [Hin | Hin]]; try discriminate Hin.
      apply in_app_or in Hin as [Hin | Hin];
        [by apply not_In_inr_map in Hin | ].
      in_cases Hin. injection Hin as <-.
      exists tr, alice_config. repeat split.
    + intros tr' e Heq. discriminate Heq.
  - split; [ | split].
    + intros ev [Hin | [Hin | Hin]];
        try (injection Hin as <-; by split).
      apply In_inl_map in Hin. by apply Hleft.
    + intros c [Hin | [Hin | Hin]]; try discriminate Hin.
      by apply not_In_inr_map in Hin.
    + intros tr' e Heq. injection Heq as <- <-. split; [reflexivity | ].
      apply no_control_call_in_map.
Qed.

End ControllerCommands.

(** ** The further properties on the sample surroundings *)

Ltac in_now := repeat first [left; reflexivity | right].

Lemma init_geth_provider_from_managed_client_witness :
  ∃ opts,
    AliceConfigOptions.__init__ (Sample.world false) false (Some "goerli")
      (Some "https://provider.example") true None (Some 9151) None None
      Sample.middleware0 = ([EvGetProviderProcess], Return opts)
    ∧ AliceConfigOptions.provider_uri opts = Some "/tmp/geth.ipc"
    ∧ AliceConfigOptions.eth_node opts = ProviderProcess "/tmp/geth.ipc".
Proof.
  destruct (init_geth_provider_from_managed_client (Sample.world false) false
              (Some "goerli") (Some "https://provider.example") None (Some 9151)
              None None Sample.middleware0 "/tmp/geth.ipc" eq_refl eq_refl)
    as (opts & Hinit & Huri & Hnode & _).
  exists opts. repeat split; assumption.
Defined.

Lemma init_without_geth_witness :
  ∃ opts,
    AliceConfigOptions.__init__ (Sample.world false) false (Some "")
      (Some "https://provider.example") false None (Some 9151) None None
      Sample.middleware0 = ([], Return opts)
    ∧ AliceConfigOptions.domains opts = None.
Proof.
  destruct (init_without_geth (Sample.world false) false (Some "")
              (Some "https://provider.example") None (Some 9151) None None
              Sample.middleware0)
    as (opts & Hinit & _ & _ & Hnone & _).
  exists opts. split; [exact Hinit | ]. apply Hnone. by right.
Defined.

Lemma create_config_other_load_errors_propagate_witness :
  ∃ args,
    AliceConfigOptions.create_config Scenario.world_corrupt_file
      (Sample.config_options false None None) Sample.emitter0 (Some "alice.json")
    = ([EvFromConfigurationFile args],
       Raise (PyException "JSONDecodeError" "Expecting value")).
Proof.
  eexists.
  apply (create_config_other_load_errors_propagate Scenario.world_corrupt_file
           (Sample.config_options false None None) Sample.emitter0
           (Some "alice.json") (PyException "JSONDecodeError" "Expecting value"));
    reflexivity.
Defined.

Lemma generate_config_account_selection_witness :
  let options :=
    Sample.config_options false None (Some "ipc:///tmp/geth.ipc") in
  In (EvSelectClientAccount (Some "ipc:///tmp/geth.ipc") false)
    (trace (AliceConfigOptions.generate_config (Sample.world false) options
              Sample.emitter0 None false false (Some 2) (Some 3) None None))
  ∧ truthy_str (AliceConfigOptions.pay_with options) = false
  ∧ truthy_flag (AliceConfigOptions.federated_only options) = false.
Proof.
  intros options.
  assert (Hin : In (EvSelectClientAccount (Some "ipc:///tmp/geth.ipc") false)
                  (trace (AliceConfigOptions.generate_config (Sample.world false)
                            options Sample.emitter0 None false false (Some 2)
                            (Some 3) None None))) by in_now.
  split; [exact Hin | ].
  destruct (generate_config_account_selection (Sample.world false) options
              Sample.emitter0 None false false (Some 2) (Some 3) None None
              _ _ Hin) as (Hpay & Hfed & _).
  split; assumption.
Defined.

Lemma generate_config_writes_last_witness :
  let g := AliceConfigOptions.generate_config (Sample.world false)
             (Sample.config_options false None (Some "ipc:///tmp/geth.ipc"))
             Sample.emitter0 None false false (Some 2) (Some 3) None None in
  ∃ a, In (EvGenerate a) (trace g)
       ∧ AliceConfiguration.g_password a = "keyring password"
       ∧ outcome g = generate (Sample.world false) a.
Proof.
  intros g. eexists. split; [subst g; in_now | ].
  edestruct (generate_config_writes_last (Sample.world false)
               (Sample.config_options false None (Some "ipc:///tmp/geth.ipc"))
               Sample.emitter0 None false false (Some 2) (Some 3) None None)
    as (Hpw & Hout & _); [in_now | ].
  split; [reflexivity | exact Hout].
Defined.

Lemma generate_config_chain_backed_is_complete_witness :
  let g := AliceConfigOptions.generate_config (Sample.world false)
             (Sample.config_options false None (Some "ipc:///tmp/geth.ipc"))
             Sample.emitter0 None false false (Some 2) (Some 3) None None in
  ∃ a, In (EvGenerate a) (trace g)
       ∧ AliceConfiguration.g_checksum_address a
         = Some "0xdeadbeefdeadbeefdeadbeefdeadbeefdeadbeef".
Proof.
  intros g. eexists. split; [subst g; in_now | ].
  edestruct (generate_config_chain_backed_is_complete (Sample.world false)
               (Sample.config_options false None (Some "ipc:///tmp/geth.ipc"))
               Sample.emitter0 None false false (Some 2) (Some 3) None None)
    as (_ & account & Haccount & _); [in_now | reflexivity | ].
  reflexivity.
Defined.

Lemma generate_config_federated_witness :
  ∃ a,
    AliceConfigOptions.generate_config (Sample.world true)
      (Sample.config_options false (Some true) None) Sample.emitter0
      (Some "/home/alice/.nucypher") false false None None None None
    = ([EvGetNucypherPassword true; EvGenerate a], generate (Sample.world true) a)
    ∧ AliceConfiguration.g_checksum_address a = None.
Proof.
  destruct (generate_config_federated (Sample.world true)
              (Sample.config_options false (Some true) None) Sample.emitter0
              (Some "/home/alice/.nucypher") false false None None None None
              "keyring password" eq_refl eq_refl eq_refl)
    as (a & Heq & Haddr & _).
  exists a. split; assumption.
Defined.

Lemma init_geth_then_generate_config_witness :
  ∃ rest,
    trace
      (opts ← AliceConfigOptions.__init__ (Sample.world false) false
                (Some "goerli") None true None (Some 9151) None None
                Sample.middleware0;
       AliceConfigOptions.generate_config (Sample.world false) opts
         Sample.emitter0 None false false None None None None)
    = EvGetProviderProcess
      :: EvSelectClientAccount (Some "/tmp/geth.ipc") false :: rest.
Proof.
  apply (init_geth_then_generate_config (Sample.world false) (Some "goerli")
           None None (Some 9151) None None Sample.middleware0 Sample.emitter0
           None false false None None None None "/tmp/geth.ipc" eq_refl eq_refl).
  discriminate.
Defined.

Lemma create_character_prompts_only_when_needed_witness :
  let cc := AliceCharacterOptions.create_character (Sample.world false)
              (Sample.character_options false None) Sample.emitter0
              (Some "alice.json") false true in
  In (EvGetClientPassword (Some "0xdeadbeefdeadbeefdeadbeefdeadbeefdeadbeef"))
    (trace cc)
  ∧ AliceCharacterOptions.hw_wallet (Sample.character_options false None) = false.
Proof.
  intros cc.
  assert (Hin : In (EvGetClientPassword
                      (Some "0xdeadbeefdeadbeefdeadbeefdeadbeefdeadbeef"))
                  (trace cc)) by (subst cc; in_now).
  split; [exact Hin | ].
  destruct (create_character_prompts_only_when_needed (Sample.world false)
              (Sample.character_options false None) Sample.emitter0
              (Some "alice.json") false true _ Hin) as (_ & Hhw & _).
  exact Hhw.
Defined.

Lemma create_character_client_password_witness :
  let cc := AliceCharacterOptions.create_character Scenario.world_with_envvar
              (Sample.character_options false None) Sample.emitter0
              (Some "alice.json") true true in
  ∃ a, In (EvMakeCliCharacter a) (trace cc)
       ∧ mc_client_password a = Password "from the environment"
       ∧ mc_unlock_keyring a = true.
Proof.
  intros cc. eexists. split; [subst cc; in_now | ].
  edestruct (create_character_client_password Scenario.world_with_envvar
               (Sample.character_options false None) Sample.emitter0
               (Some "alice.json") true true)
    as (Hpw & Hunlock & _); [in_now | ].
  split; [exact Hpw | exact Hunlock].
Defined.

Lemma create_character_dev_witness :
  ∃ a,
    AliceCharacterOptions.create_character (Sample.world false)
      (Sample.character_options true None) Sample.emitter0 None true true
    = ([EvMakeCliCharacter a],
       Return {| alice_federated_only := true;
                 alice_stamp := [Byte.x02; Byte.xab] |})
    ∧ mc_unlock_keyring a = false
    ∧ mc_client_password a = PasswordNone.
Proof.
  destruct (create_character_dev (Sample.world false)
              (Sample.character_options true None) Sample.emitter0 None true true
              eq_refl) as (a & Hhd & Hunlock & Hpw & _ & _ & _ & Hret);
    [discriminate | ].
  exists a. injection Hhd as <-.
  split; [by apply Hret | split; assumption].
Defined.

Lemma create_character_other_errors_propagate_witness :
  let cc := AliceCharacterOptions.create_character Scenario.world_keyring_error
              (Sample.character_options false None) Sample.emitter0
              (Some "alice.json") false true in
  outcome cc = Raise (PyException "OSError" "keyring not readable")
  ∧ ∃ before a, trace cc = (before ++ [EvMakeCliCharacter a])%list.
Proof.
  intros cc.
  edestruct (create_character_other_errors_propagate Scenario.world_keyring_error
               (Sample.character_options false None) Sample.emitter0
               (Some "alice.json") false true)
    as (Hout & before & Htrace & _);
    [in_now | reflexivity | reflexivity | ].
  split; [exact Hout | ]. eexists before, _. exact Htrace.
Defined.

Lemma create_character_prompt_fails_witness :
  let cc := AliceCharacterOptions.create_character Scenario.world_prompt_aborted
              (Sample.character_options false None) Sample.emitter0
              (Some "alice.json") false true in
  outcome cc = Raise (PyException "Abort" "")
  ∧ existsb is_unlock_attempt (trace cc) = false.
Proof.
  intros cc.
  apply (create_character_prompt_fails Scenario.world_prompt_aborted
           (Sample.character_options false None) Sample.emitter0
           (Some "alice.json") false true
           (Some "0xdeadbeefdeadbeefdeadbeefdeadbeefdeadbeef")
           (PyException "Abort" "")); [in_now | reflexivity].
Defined.

Lemma create_character_returns_from_keyring_witness :
  let cc := AliceCharacterOptions.create_character (Sample.world true)
              (Sample.character_options false None) Sample.emitter0
              (Some "alice.json") false true in
  ∃ before a,
    trace cc = (before ++ [EvMakeCliCharacter a])%list
    ∧ make_cli_character (Sample.world true) a
      = Return {| alice_federated_only := true;
                  alice_stamp := [Byte.x02; Byte.xab] |}.
Proof.
  intros cc.
  destruct (create_character_returns_from_keyring (Sample.world true)
              (Sample.character_options false None) Sample.emitter0
              (Some "alice.json") false true (trace cc)
              {| alice_federated_only := true;
                 alice_stamp := [Byte.x02; Byte.xab] |} eq_refl)
    as (before & a & Htrace & Hmake & _).
  exists before, a. split; assumption.
Defined.

Lemma run_one_transport_witness :
  let r := run (Sample.world true) (Sample.general false)
             (Sample.character_options false None) None 8151 false in
  existsb is_web_event (trace r) = true
  ∧ existsb is_rpc_event (trace r) = false
  ∧ (length (List.filter is_start (trace r)) ≤ 1)%nat.
Proof.
  intros r.
  destruct (run_one_transport (Sample.world true) (Sample.general false)
              (Sample.character_options false None) None 8151 false)
    as (_ & _ & Honce).
  split; [reflexivity | split; [reflexivity | exact Honce]].
Defined.

Lemma run_listener_after_unlock_witness :
  let r := run (Sample.world true) (Sample.general true)
             (Sample.character_options false None) None 8151 false in
  existsb is_listener_event (trace r) = true
  ∧ ∃ before a ALICE rest,
      trace r = (before ++ EvMakeCliCharacter a :: rest)%list
      ∧ make_cli_character (Sample.world true) a = Return ALICE.
Proof.
  intros r. split; [reflexivity | ].
  destruct (run_listener_after_unlock (Sample.world true) (Sample.general true)
              (Sample.character_options false None) None 8151 false eq_refl)
    as (before & a & ALICE & rest & Htrace & Hmake & _).
  exists before, a, ALICE, rest. split; assumption.
Defined.

Lemma run_web_start_arguments_witness :
  let r := run (Sample.world true) (Sample.general false)
             (Sample.character_options false None) None 8151 true in
  In (EvWebStart 8151 true) (trace r)
  ∧ In (EvMakeWebController false) (trace r).
Proof.
  intros r.
  assert (Hin : In (EvWebStart 8151 true) (trace r)) by (subst r; in_now).
  split; [exact Hin | ].
  destruct (run_web_start_arguments (Sample.world true) (Sample.general false)
              (Sample.character_options false None) None 8151 true _ _ Hin)
    as (_ & _ & _ & Hmade).
  exact Hmade.
Defined.

Lemma run_returns_start_result_witness :
  let r := run Scenario.world_echoing_port (Sample.general false)
             (Sample.character_options false None) None 8151 true in
  outcome r = Return (PyInt 8151)
  ∧ existsb is_crash_report (trace r) = false.
Proof.
  intros r.
  edestruct (run_returns_start_result Scenario.world_echoing_port
               (Sample.general false) (Sample.character_options false None)
               None 8151 true) as (Hout & Hcalm & _);
    [reflexivity | reflexivity | ].
  split; [exact Hout | exact Hcalm].
Defined.

Lemma run_crash_reported_witness :
  let quiet := run (Scenario.world_crashing true) (Sample.general false)
                 (Sample.character_options false None) None 8151 false in
  let loud := run (Scenario.world_crashing true) (Scenario.debug_general true)
                (Sample.character_options false None) None 8151 false in
  outcome quiet = Return PyNone
  ∧ outcome loud = Raise (PyException "OSError" "broken pipe").
Proof.
  intros quiet loud. split.
  - edestruct (run_crash_reported (Scenario.world_crashing true)
                 (Sample.general false) (Sample.character_options false None)
                 None 8151 false) as (Hout & _);
      [reflexivity | reflexivity | reflexivity | exact Hout].
  - edestruct (run_crash_reported (Scenario.world_crashing true)
                 (Scenario.debug_general true)
                 (Sample.character_options false None)
                 None 8151 false) as (Hout & _);
      [reflexivity | reflexivity | reflexivity | exact Hout].
Defined.

Lemma run_interrupt_not_caught_witness :
  let r := run (Scenario.world_interrupted true) (Sample.general false)
             (Sample.character_options false None) None 8151 false in
  outcome r = Raise (PyBaseException "KeyboardInterrupt" "")
  ∧ existsb is_crash_report (trace r) = false.
Proof.
  intros r.
  eapply (run_interrupt_not_caught (Scenario.world_interrupted true)
            (Sample.general false) (Sample.character_options false None)
            None 8151 false); reflexivity.
Defined.

Lemma grant_chain_backed_forwards_payment_witness :
  let w := Sample.world false in
  let options := Sample.character_options false None in
  let cc := AliceCharacterOptions.create_character w options Sample.emitter0
              None false true in
  ∃ request,
    grant w (Sample.general false) "02aa" "03bb" "label" (Some 2) (Some 3)
      None (Some 100) None options None
    = ((EvEmitterClear :: EvEmitterBanner :: trace cc)
       ++ [EvControllerGrant request], Return (PyStr "receipt"))%list
    ∧ request !! "value" = Some (PyInt 100)
    ∧ request !! "rate" = Some PyNone.
Proof.
  intros w options cc.
  destruct (grant_chain_backed_forwards_payment w (Sample.general false)
              "02aa" "03bb" "label" (Some 2) (Some 3) None (Some 100) None
              options None (trace cc)
              {| alice_federated_only := false;
                 alice_stamp := [Byte.x02; Byte.xab] |} eq_refl eq_refl)
    as (request & Hgrant & Hvalue & Hrate & _).
  exists request. repeat split; assumption.
Defined.

Lemma grant_after_unlock_witness :
  let r := grant (Sample.world false) (Sample.general false) "02aa" "03bb"
             "label" (Some 2) (Some 3) None (Some 100) None
             (Sample.character_options false None) None in
  ∃ request,
    In (EvControllerGrant request) (trace r)
    ∧ request !! "label" = Some (PyStr "label")
    ∧ outcome r = Return (PyStr "receipt").
Proof.
  intros r. eexists. split; [subst r; in_now | ].
  edestruct (grant_after_unlock (Sample.world false) (Sample.general false)
               "02aa" "03bb" "label" (Some 2) (Some 3) None (Some 100) None
               (Sample.character_options false None) None)
    as (before & a & ALICE & _ & _ & _ & _ & Hlabel & _); [in_now | ].
  split; [exact Hlabel | reflexivity].
Defined.

Lemma init_written_arguments_witness :
  let r := init (Sample.world true) (Scenario.debug_general false)
             (Sample.config_options false (Some true) None) (Some "")
             true false (Some 2) (Some 3) (Some 50) None in
  ∃ a, In (EvGenerate a) (trace r)
       ∧ AliceConfiguration.g_config_root a = Some "/home/alice/.nucypher"
       ∧ AliceConfiguration.g_rate a = Some 50
       ∧ AliceConfiguration.g_poa a = true.
Proof.
  intros r. eexists. split; [subst r; in_now | ].
  edestruct (init_written_arguments (Sample.world true)
               (Scenario.debug_general false)
               (Sample.config_options false (Some true) None) (Some "")
               true false (Some 2) (Some 3) (Some 50) None)
    as (Hroot & _ & _ & Hrate & _ & Hpoa & _); [in_now | ].
  repeat split; assumption.
Defined.

Lemma init_paints_after_write_witness :
  let r := init (Sample.world true) (Sample.general false)
             (Sample.config_options false (Some true) None)
             (Some "/home/alice/.nucypher") false false None None None None in
  ∃ new_configuration,
    In (EvPaintNewInstallationHelp new_configuration) (trace r)
    ∧ outcome r = Return tt.
Proof.
  intros r. eexists. split; [subst r; in_now | ].
  edestruct (init_paints_after_write (Sample.world true) (Sample.general false)
               (Sample.config_options false (Some true) None)
               (Some "/home/alice/.nucypher") false false None None None None)
    as (Hout & _); [in_now | exact Hout].
Defined.

Lemma public_keys_after_unlock_witness :
  let r := public_keys (Sample.world true) Scenario.controller
             (Sample.general false) (Sample.character_options false None) None in
  let refused := public_keys Sample.world_wrong_password Scenario.controller
                   (Sample.general false) (Sample.character_options false None)
                   None in
  In (inr EvControllerPublicKeys) (trace_x r)
  ∧ outcome_x r = Return (PyStr "02ab 03cd")
  ∧ outcome_x refused = Raise (Exit 1)
  ∧ existsb is_control_call (trace_x refused) = false.
Proof.
  intros r refused.
  assert (Hin : In (inr EvControllerPublicKeys) (trace_x r)) by (subst r; in_now).
  split; [exact Hin | ]. split; [reflexivity | ].
  edestruct (public_keys_after_unlock Sample.world_wrong_password
               Scenario.controller (Sample.general false)
               (Sample.character_options false None) None) as [_ Hwrong].
  eapply Hwrong; [in_now | reflexivity].
Defined.

Lemma derive_policy_pubkey_after_unlock_witness :
  let r := derive_policy_pubkey (Sample.world true) Scenario.controller
             (Sample.general false) "label"
             (Sample.character_options false None) None in
  ∃ before a ALICE,
    trace_x r
    = (List.map inl (before ++ [EvMakeCliCharacter a])
       ++ [inr (EvControllerDerivePolicyEncryptingKey "label")])%list
    ∧ make_cli_character (Sample.world true) a = Return ALICE
    ∧ mc_start_learning_now a = false.
Proof.
  intros r.
  edestruct (derive_policy_pubkey_after_unlock (Sample.world true)
               Scenario.controller (Sample.general false) "label"
               (Sample.character_options false None) None) as [Hcall _].
  destruct (Hcall (EvControllerDerivePolicyEncryptingKey "label"))
    as (before & a & ALICE & Htrace & _ & Hmake & _ & Hlearn & _); [in_now | ].
  exists before, a, ALICE. repeat split; assumption.
Defined.

Lemma revoke_after_unlock_witness :
  let r := revoke (Sample.world true) Scenario.controller
             (Sample.general false) "03bb" "label"
             (Sample.character_options false None) None in
  ∃ c before a ALICE,
    In (inr c) (trace_x r)
    ∧ trace_x r
      = (List.map inl (before ++ [EvMakeCliCharacter a]) ++ [inr c])%list
    ∧ make_cli_character (Sample.world true) a = Return ALICE
    ∧ mc_start_learning_now a = true
    ∧ outcome_x r = Return (PyStr "revoked").
Proof.
  intros r.
  edestruct (revoke_after_unlock (Sample.world true) Scenario.controller
               (Sample.general false) "03bb" "label"
               (Sample.character_options false None) None) as [Hcall _].
  edestruct Hcall
    as (before & a & ALICE & Htrace & _ & Hmake & _ & Hlearn & _); [in_now | ].
  eexists _, before, a, ALICE.
  split; [in_now | ]. split; [exact Htrace | ].
  split; [exact Hmake | ]. split; [exact Hlearn | reflexivity].
Defined.

Lemma decrypt_after_unlock_witness :
  let r := decrypt (Sample.world true) Scenario.controller
             (Sample.general false) "label" "a2V5" 
             (Sample.character_options false None) None in
  let refused := decrypt Sample.world_wrong_password Scenario.controller
                   (Sample.general false) "label" "a2V5"
                   (Sample.character_options false None) None in
  outcome_x r = Return (PyStr "cleartext")
  ∧ outcome_x refused = Raise (Exit 1)
  ∧ existsb is_control_call (trace_x refused) = false.
Proof.
  intros r refused. split; [reflexivity | ].
  edestruct (decrypt_after_unlock Sample.world_wrong_password
               Scenario.controller (Sample.general false) "label" "a2V5"
               (Sample.character_options false None) None)
    as (_ & _ & _ & _ & Hwrong).
  eapply Hwrong; [in_now | reflexivity].
Defined.

Lemma destroy_after_create_config_witness :
  let r := destroy (Sample.world false) Scenario.controller
             (Sample.general false) (Sample.config_options false None None)
             (Some "alice.json") true in
  let missing := destroy Sample.world_without_file Scenario.controller
                   (Sample.general false) (Sample.config_options false None None)
                   (Some "alice.json") true in
  (∃ alice_config, In (inr (EvDestroyConfiguration alice_config true)) (trace_x r))
  ∧ outcome_x r = Return PyNone
  ∧ outcome_x missing = Raise (PyException "Abort" "")
  ∧ existsb is_control_call (trace_x missing) = false.
Proof.
  intros r missing. split; [eexists; subst r; in_now | ].
  split; [reflexivity | ].
  edestruct (destroy_after_create_config Sample.world_without_file
               Scenario.controller (Sample.general false)
               (Sample.config_options false None None) (Some "alice.json") true)
    as (_ & _ & Hraise).
  eapply Hraise. reflexivity.
Defined.
